(** * lb9: exchange metadata, candles, time series and logging

    A shallow embedding of [lb9(2).py]: the pydantic models [PairModel] and
    [HistoricalData], the three loaders [get_pairs], [get_historical_data]
    and [get_products], the logging set-up around [CustomFormatter], the
    window arithmetic and the top-level loop of the script.

    Library behaviour the script relies on is written out where the script
    observes it: pydantic 1.x field validation (the API the file is written
    against: [validator], [constr], [Config.allow_mutation], [.dict()]),
    CPython's [str.isupper], [str.isalnum], [float] and [int], the handler
    dispatch of [logging], and the part of pandas that builds a frame from
    a list of row dicts. *)

From Stdlib Require Import ZArith NArith List String Ascii Bool Lia.
From Stdlib Require Import PrimFloat SpecFloat FloatOps.
From Stdlib Require DecimalString.
Import ListNotations.

Set Warnings "-register-all,-inexact-float".

(** ** Python strings

    A [str] is a sequence of Unicode code points.  The Unicode character
    database that [isupper] and [isalnum] consult is a table the script does
    not carry: it is a parameter of the methods, and [ascii_table] tabulates
    its ASCII block for concrete evaluation. *)
Module PyStr.

Definition codepoint := N.
Definition str := list codepoint.

(** An ASCII literal as a [str]. *)
Definition of_string (s : string) : str :=
  map N_of_ascii (list_ascii_of_string s).

Fixpoint eqb (a b : str) : bool :=
  match a, b with
  | [], [] => true
  | x :: a', y :: b' => N.eqb x y && eqb a' b'
  | _, _ => false
  end.

Record CharTable := {
  isalnum_ch : codepoint -> bool;   (* Py_UNICODE_ISALNUM *)
  isupper_ch : codepoint -> bool;   (* Py_UNICODE_ISUPPER *)
  islower_ch : codepoint -> bool;   (* Py_UNICODE_ISLOWER *)
  istitle_ch : codepoint -> bool    (* Py_UNICODE_ISTITLE *)
}.

Section Methods.
Variable T : CharTable.

(** The loop of [unicode_isupper_impl]: a lowercase or titlecase
    character answers False at once, an uppercase one sets [cased]. *)
Fixpoint isupper_loop (cased : bool) (s : str) : bool :=
  match s with
  | [] => cased
  | ch :: rest =>
      if islower_ch T ch || istitle_ch T ch then false
      else isupper_loop (cased || isupper_ch T ch) rest
  end.

(** [str.isupper()], with CPython's shortcut for one character and its
    special case for the empty string. *)
Definition isupper (s : str) : bool :=
  match s with
  | [ch] => isupper_ch T ch
  | [] => false
  | _ => isupper_loop false s
  end.

(** [str.isalnum()]: non-empty and every character alphanumeric. *)
Definition isalnum (s : str) : bool :=
  match s with
  | [ch] => isalnum_ch T ch
  | [] => false
  | _ => forallb (isalnum_ch T) s
  end.

(** A character with no case at all. *)
Definition uncased_ch (ch : codepoint) : Prop :=
  isupper_ch T ch = false /\ islower_ch T ch = false /\ istitle_ch T ch = false.

(** In the real database an uppercase character is neither lowercase nor
    titlecase. *)
Definition case_disjoint : Prop :=
  forall ch, isupper_ch T ch = true ->
             islower_ch T ch = false /\ istitle_ch T ch = false.
End Methods.

Definition in_range (lo hi c : N) : bool := (N.leb lo c && N.leb c hi)%bool.

(** The ASCII block of the database; code points above 127 are left
    unclassified. *)
Definition ascii_table : CharTable := {|
  isalnum_ch := fun c => in_range 48 57 c || in_range 65 90 c || in_range 97 122 c;
  isupper_ch := fun c => in_range 65 90 c;
  islower_ch := fun c => in_range 97 122 c;
  istitle_ch := fun _ => false
|}.

End PyStr.
Import PyStr.

(** ** Decoded JSON and exceptions *)

(** What [response.json()] hands to the loaders.  Numbers with a fraction or
    an exponent are left out: neither endpoint sends any (prices travel as
    strings). *)
Inductive json :=
| JNull
| JBool (b : bool)
| JInt (z : Z)
| JStr (s : str)
| JArr (items : list json)
| JObj (members : list (str * json)).

Inductive exn :=
| KeyError (key : json)
| IndexError
| TypeError
| ValueError (msg : string)
| OverflowError
(* pydantic.errors *)
| NoneIsNotAllowedError
| StrError
| IntegerError
| AnyStrMinLengthError (limit_value : nat)
| AnyStrMaxLengthError (limit_value : nat)
(* pydantic.ValidationError: the model's name and one (loc, error) per
   failing field *)
| ValidationError (model : string) (errors : list (string * exn))
(* pandas *)
| ColumnKeyError (label : string)
| OutOfBoundsDatetime
| LengthMismatch
(* requests *)
| RequestException (what : string).

Inductive result (A : Type) :=
| Ok (a : A)
| Raise (e : exn).
Arguments Ok {A} a.
Arguments Raise {A} e.

Definition bind {A B} (m : result A) (f : A -> result B) : result B :=
  match m with
  | Ok a => f a
  | Raise e => Raise e
  end.

Declare Scope py_scope.
Delimit Scope py_scope with py.
Notation "x <- m ;; k" := (bind m (fun x => k))
  (at level 61, m at next level, right associativity) : py_scope.

(** [for x in xs: ys.append(f(x))], stopping at the first exception. *)
Fixpoint map_result {A B} (f : A -> result B) (xs : list A) : result (list B) :=
  match xs with
  | [] => Ok []
  | x :: rest =>
      match f x with
      | Raise e => Raise e
      | Ok y =>
          match map_result f rest with
          | Raise e => Raise e
          | Ok ys => Ok (y :: ys)
          end
      end
  end.

(** [str(z)] for a Python int. *)
Definition str_of_int (z : Z) : str :=
  of_string (DecimalString.NilZero.string_of_int (Z.to_int z)).

(** ** pydantic: the [PairModel] record and its validators *)
Module Pydantic.
Local Open Scope string_scope.

(** [str_validator]: a str passes, an int (bool included) is printed, other
    values are refused. *)
Definition str_validator (v : json) : result str :=
  match v with
  | JStr s => Ok s
  | JInt z => Ok (str_of_int z)
  | JBool true => Ok (of_string "True")
  | JBool false => Ok (of_string "False")
  | _ => Raise StrError
  end.

(** [constr_length_validator]; an absent [min_length] falls back to
    [config.min_anystr_length], which is 0. *)
Definition constr_length_validator (min_length max_length : option nat) (v : str)
  : result str :=
  let v_len := List.length v in
  let min_length := match min_length with Some n => n | None => 0%nat end in
  if (v_len <? min_length)%nat then Raise (AnyStrMinLengthError min_length)
  else match max_length with
       | Some n => if (n <? v_len)%nat then Raise (AnyStrMaxLengthError n) else Ok v
       | None => Ok v
       end.

(** [ModelField._apply_validators]: the chain stops at the first validator
    that raises. *)
Fixpoint apply_validators (validators : list (str -> result str)) (v : str)
  : result str :=
  match validators with
  | [] => Ok v
  | f :: rest =>
      match f v with
      | Ok v' => apply_validators rest v'
      | Raise e => Raise e
      end
  end.

(** [ModelField.validate] for a required [constr] field: None is refused,
    then the type's own validators run, and the class validators (all of
    them declared without [pre]) run only when those passed. *)
Definition validate_constr_field (min_length max_length : option nat)
    (post_validators : list (str -> result str)) (v : json) : result str :=
  match v with
  | JNull => Raise NoneIsNotAllowedError
  | _ =>
      (s <- str_validator v ;;
       s <- constr_length_validator min_length max_length s ;;
       apply_validators post_validators s)%py
  end.

Record PairModel := {
  symbol : str;
  base_asset : str;
  quote_asset : str
}.

Section Validators.
Variable T : CharTable.

Definition validate_symbol_length (v : str) : result str :=
  if negb (List.length v =? 6)%nat
  then Raise (ValueError "Symbol length must be 6 characters")
  else Ok v.

Definition validate_asset_case (v : str) : result str :=
  if negb (isupper T v)
  then Raise (ValueError "Asset symbols must be uppercase")
  else Ok v.

Definition validate_symbol_format (v : str) : result str :=
  if negb (isalnum T v)
  then Raise (ValueError "Symbol must contain only alphanumeric characters")
  else Ok v.

(** The three fields, with their constraints and the class validators
    in the order the class body declares them. *)
Definition validate_symbol : json -> result str :=
  validate_constr_field (Some 6%nat) (Some 6%nat)
    [validate_symbol_length; validate_symbol_format].
Definition validate_base_asset : json -> result str :=
  validate_constr_field None (Some 10%nat) [validate_asset_case].
Definition validate_quote_asset : json -> result str :=
  validate_constr_field None (Some 10%nat) [validate_asset_case].

(** The error entry of one field, if it has one. *)
Definition field_errors {A} (loc : string) (r : result A) : list (string * exn) :=
  match r with
  | Ok _ => []
  | Raise e => [(loc, e)]
  end.

(** [PairModel(symbol=..., base_asset=..., quote_asset=...)]:
    [validate_model] validates every field in declaration order, collects
    the fields' errors, and raises one [ValidationError] when there is
    any. *)
Definition PairModel_new (symbol base_asset quote_asset : json) : result PairModel :=
  let r1 := validate_symbol symbol in
  let r2 := validate_base_asset base_asset in
  let r3 := validate_quote_asset quote_asset in
  match r1, r2, r3 with
  | Ok s, Ok b, Ok q => Ok {| symbol := s; base_asset := b; quote_asset := q |}
  | _, _, _ =>
      Raise (ValidationError "PairModel"
               (field_errors "symbol" r1 ++ field_errors "base_asset" r2
                ++ field_errors "quote_asset" r3))
  end.
End Validators.

End Pydantic.
Import Pydantic.

(** ** Reading decoded JSON the way the loaders do *)
Module Json.

Fixpoint lookup (key : str) (members : list (str * json)) : option json :=
  match members with
  | [] => None
  | (k, v) :: rest => if PyStr.eqb k key then Some v else lookup key rest
  end.

(** [d[key]] with a string key: a dict answers or raises [KeyError]; a list
    or a str wants an integer index, anything else is not subscriptable. *)
Definition getitem_key (d : json) (key : string) : result json :=
  match d with
  | JObj members =>
      match lookup (of_string key) members with
      | Some v => Ok v
      | None => Raise (KeyError (JStr (of_string key)))
      end
  | _ => Raise TypeError
  end.

(** [d[i]] with a non-negative integer literal. *)
Definition getitem_index (d : json) (i : nat) : result json :=
  match d with
  | JArr items =>
      match nth_error items i with
      | Some v => Ok v
      | None => Raise IndexError
      end
  | JStr s =>
      match nth_error s i with
      | Some ch => Ok (JStr [ch])
      | None => Raise IndexError
      end
  | JObj _ => Raise (KeyError (JInt (Z.of_nat i)))
  | _ => Raise TypeError
  end.

(** [for x in d]: the items of a list, the keys of a dict, the characters
    of a str. *)
Definition iter (d : json) : result (list json) :=
  match d with
  | JArr items => Ok items
  | JObj members => Ok (map (fun kv => JStr (fst kv)) members)
  | JStr s => Ok (map (fun ch => JStr [ch]) s)
  | _ => Raise TypeError
  end.

End Json.
Import Json.

(** ** Python numbers: [float(...)] and the int coercion of pydantic *)
Module PyNum.
Local Open Scope Z_scope.

Definition prec : Z := 53.
Definition emax : Z := 1024.

(** The binary64 value nearest to [n / d] (ties to even), for [0 <= n] and
    [0 < d]: a quotient of at least 64 bits, its last bit made sticky by
    the remainder, rounded once. *)
Definition round_ratio (negative : bool) (n d : Z) : spec_float :=
  let k := Z.max 0 (64 + Z.log2 d - Z.log2 n) in
  let num := n * 2 ^ k in
  let q := num / d in
  let sticky := if num mod d =? 0 then 0 else 1 in
  let m := 2 * q + sticky in
  binary_normalize prec emax (if negative then - m else m) (- k - 1) negative.

(** The binary64 value nearest to [m * 10 ^ e10], for [0 <= m]. *)
Definition round_decimal (negative : bool) (m e10 : Z) : spec_float :=
  if m =? 0 then S754_zero negative
  else if 0 <=? e10
       then let v := m * 10 ^ e10 in
            binary_normalize prec emax (if negative then - v else v) 0 negative
       else round_ratio negative m (10 ^ (- e10)).

Definition digit_val (ch : codepoint) : option Z :=
  if in_range 48 57 ch then Some (Z.of_N ch - 48) else None.

(** Reads a run of ASCII digits: the value accumulated on [acc], how many
    digits were read, and the rest. *)
Fixpoint take_digits (s : str) (acc : Z) (count : nat) : Z * nat * str :=
  match s with
  | ch :: rest =>
      match digit_val ch with
      | Some d => take_digits rest (10 * acc + d) (S count)
      | None => (acc, count, s)
      end
  | [] => (acc, count, [])
  end.

Definition take_sign (s : str) : bool * str :=
  match s with
  | 45%N :: rest => (true, rest)
  | 43%N :: rest => (false, rest)
  | _ => (false, s)
  end.

Definition is_space (ch : codepoint) : bool :=
  (N.eqb ch 32 || in_range 9 13 ch || in_range 28 31 ch)%bool.

Fixpoint lstrip (s : str) : str :=
  match s with
  | ch :: rest => if is_space ch then lstrip rest else s
  | [] => []
  end.

Definition strip (s : str) : str := rev (lstrip (rev (lstrip s))).

Definition lower_ascii (s : str) : str :=
  map (fun ch => if in_range 65 90 ch then (ch + 32)%N else ch) s.

(** The optional exponent part: [e] or [E], a sign, at least one digit. *)
Definition take_exponent (s : str) : option (Z * str) :=
  match s with
  | ch :: rest =>
      if (N.eqb ch 101 || N.eqb ch 69)%bool then
        let (eneg, r1) := take_sign rest in
        let '(ev, ne, r2) := take_digits r1 0 0%nat in
        match ne with
        | O => None
        | S _ => Some (if eneg then - ev else ev, r2)
        end
      else Some (0, s)
  | [] => Some (0, [])
  end.

(** [float(s)] on a str: surrounding white space, a sign, then [inf],
    [infinity], [nan] in any letter case, or decimal digits with an optional
    fraction and exponent.  [None] is Python's [ValueError].  Digit-group
    underscores and non-ASCII digits or spaces, which Python also accepts,
    are not recognised here. *)
Definition parse_float (s : str) : option float :=
  let (negative, body) := take_sign (strip s) in
  let name := lower_ascii body in
  if (PyStr.eqb name (of_string "inf") || PyStr.eqb name (of_string "infinity"))%bool
  then Some (if negative then neg_infinity else infinity)
  else if PyStr.eqb name (of_string "nan") then Some nan
  else
    let '(ip, ni, r1) := take_digits body 0 0%nat in
    let '(m, nf, r2) :=
      match r1 with
      | 46%N :: r => take_digits r ip 0%nat
      | _ => (ip, 0%nat, r1)
      end in
    match (ni + nf)%nat with
    | O => None
    | S _ =>
        match take_exponent r2 with
        | Some (e, []) => Some (SF2Prim (round_decimal negative m (e - Z.of_nat nf)))
        | _ => None
        end
    end.

(** [float(z)] on an int: nearest binary64, [OverflowError] beyond its
    range. *)
Definition float_of_int (z : Z) : result float :=
  match binary_normalize prec emax z 0 false with
  | S754_infinity _ => Raise OverflowError
  | f => Ok (SF2Prim f)
  end.

(** The builtin [float(v)]. *)
Definition py_float (v : json) : result float :=
  match v with
  | JStr s =>
      match parse_float s with
      | Some f => Ok f
      | None => Raise (ValueError "could not convert string to float")
      end
  | JInt z => float_of_int z
  | JBool b => Ok (if b then one else zero)
  | _ => Raise TypeError
  end.

(** [int(s)] on a str: white space, a sign, decimal digits (underscores and
    non-ASCII digits again left out). *)
Definition parse_int (s : str) : option Z :=
  let (negative, body) := take_sign (strip s) in
  match take_digits body 0 0%nat with
  | (_, O, _) => None
  | (v, S _, []) => Some (if negative then - v else v)
  | _ => None
  end.

(** pydantic's [int_validator] behind an [int] field: an int passes, a bool
    or a str goes through [int(...)], the rest is refused. *)
Definition int_validator (v : json) : result Z :=
  match v with
  | JNull => Raise NoneIsNotAllowedError
  | JInt z => Ok z
  | JBool b => Ok (if b then 1 else 0)
  | JStr s =>
      match parse_int s with
      | Some z => Ok z
      | None => Raise IntegerError
      end
  | _ => Raise IntegerError
  end.

End PyNum.
Import PyNum.

(** ** The candle record *)
Module Candle.
Local Open Scope string_scope.

Record HistoricalData := {
  open_time : Z;
  open : float;
  high : float;
  low : float;
  close : float;
  volume : float;
  close_time : Z;
  quote_asset_volume : float;
  num_trades : Z;
  taker_buy_base_asset_volume : float;
  taker_buy_quote_asset_volume : float;
  ignore : float
}.

(** [HistoricalData(open_time=..., ...)]: the float fields receive floats
    and pass; the three int fields go through [int_validator], their errors
    collected in field order. *)
Definition HistoricalData_new (open_time_v : json) (open_v high_v low_v close_v volume_v : float)
    (close_time_v : json) (quote_asset_volume_v : float) (num_trades_v : json)
    (taker_base_v taker_quote_v ignore_v : float) : result HistoricalData :=
  let r1 := int_validator open_time_v in
  let r2 := int_validator close_time_v in
  let r3 := int_validator num_trades_v in
  match r1, r2, r3 with
  | Ok ot, Ok ct, Ok nt =>
      Ok {| open_time := ot; open := open_v; high := high_v; low := low_v;
            close := close_v; volume := volume_v; close_time := ct;
            quote_asset_volume := quote_asset_volume_v; num_trades := nt;
            taker_buy_base_asset_volume := taker_base_v;
            taker_buy_quote_asset_volume := taker_quote_v; ignore := ignore_v |}
  | _, _, _ =>
      Raise (ValidationError "HistoricalData"
               (field_errors "open_time" r1 ++ field_errors "close_time" r2
                ++ field_errors "num_trades" r3))
  end.

(** The body of the loop of [get_historical_data]: the keyword arguments
    are evaluated left to right, then the record is built. *)
Definition parse_candle (candle : json) : result HistoricalData :=
  (c0 <- getitem_index candle 0 ;;
   c1 <- getitem_index candle 1 ;; f1 <- py_float c1 ;;
   c2 <- getitem_index candle 2 ;; f2 <- py_float c2 ;;
   c3 <- getitem_index candle 3 ;; f3 <- py_float c3 ;;
   c4 <- getitem_index candle 4 ;; f4 <- py_float c4 ;;
   c5 <- getitem_index candle 5 ;; f5 <- py_float c5 ;;
   c6 <- getitem_index candle 6 ;;
   c7 <- getitem_index candle 7 ;; f7 <- py_float c7 ;;
   c8 <- getitem_index candle 8 ;;
   c9 <- getitem_index candle 9 ;; f9 <- py_float c9 ;;
   c10 <- getitem_index candle 10 ;; f10 <- py_float c10 ;;
   c11 <- getitem_index candle 11 ;; f11 <- py_float c11 ;;
   HistoricalData_new c0 f1 f2 f3 f4 f5 c6 f7 c8 f9 f10 f11)%py.

End Candle.
Import Candle.

(** ** The three loaders *)
Module Loaders.
Local Open Scope string_scope.
Local Open Scope py_scope.

(** [pd.DataFrame(products, columns=['Product'])] for a flat list of scalar
    entries: one column, one row per entry, in order. *)
Record ProductsFrame := { Product : list json }.

Section Http.
Variable T : CharTable.

(** [requests.get(url, params=params).json()]: the decoded body, or the
    exception of the transport or of the decoder. *)
Variable requests_get_json : string -> list (string * json) -> result json.

Definition get_pairs : result (list PairModel) :=
  data <- requests_get_json "https://api.binance.com/api/v3/exchangeInfo" [] ;;
  symbols <- getitem_key data "symbols" ;;
  items <- iter symbols ;;
  map_result
    (fun pair_data =>
       s <- getitem_key pair_data "symbol" ;;
       b <- getitem_key pair_data "baseAsset" ;;
       q <- getitem_key pair_data "quoteAsset" ;;
       PairModel_new T s b q)
    items.

Definition get_historical_data (symbol interval : string) (start_time end_time : Z)
  : result (list HistoricalData) :=
  let params := [("symbol", JStr (of_string symbol));
                 ("interval", JStr (of_string interval));
                 ("startTime", JInt start_time);
                 ("endTime", JInt end_time)] in
  data <- requests_get_json "https://api.binance.com/api/v1/klines" params ;;
  items <- iter data ;;
  map_result parse_candle items.

Definition get_products : result ProductsFrame :=
  data <- requests_get_json "https://api.binance.com/api/v3/exchangeInfo" [] ;;
  symbols <- getitem_key data "symbols" ;;
  items <- iter symbols ;;
  products <- map_result (fun product => getitem_key product "symbol") items ;;
  Ok {| Product := products |}.
End Http.

End Loaders.
Import Loaders.

(** ** The time-indexed table *)
Module Pandas.
Local Open Scope string_scope.
Local Open Scope py_scope.

Inductive cell :=
| CInt (z : Z)
| CFloat (f : float).

(** [candle.dict()]: the fields in declaration order. *)
Definition dict (c : HistoricalData) : list (string * cell) :=
  [("open_time", CInt (open_time c));
   ("open", CFloat (open c));
   ("high", CFloat (high c));
   ("low", CFloat (low c));
   ("close", CFloat (close c));
   ("volume", CFloat (volume c));
   ("close_time", CInt (close_time c));
   ("quote_asset_volume", CFloat (quote_asset_volume c));
   ("num_trades", CInt (num_trades c));
   ("taker_buy_base_asset_volume", CFloat (taker_buy_base_asset_volume c));
   ("taker_buy_quote_asset_volume", CFloat (taker_buy_quote_asset_volume c));
   ("ignore", CFloat (ignore c))].

Inductive Index :=
| RangeIndex (stop : nat)
| DatetimeIndex (stamps_ns : list Z).

Definition index_length (i : Index) : nat :=
  match i with
  | RangeIndex n => n
  | DatetimeIndex l => List.length l
  end.

(** A frame of candle rows.  The column labels are not fixed by a schema:
    they are the keys found in the row dicts the frame was built from. *)
Record DataFrame := {
  columns : list string;
  index : Index;
  rows : list HistoricalData
}.

Definition contains (label : string) (labels : list string) : bool :=
  existsb (String.eqb label) labels.

(** The keys of the row dicts, each once, in order of first appearance. *)
Fixpoint union_keys (seen : list string) (dicts : list (list (string * cell)))
  : list string :=
  match dicts with
  | [] => seen
  | d :: rest =>
      union_keys
        (fold_left (fun acc kv => if contains (fst kv) acc then acc else (acc ++ [fst kv])%list)
                   d seen)
        rest
  end.

(** [pd.DataFrame([candle.dict() for candle in historical_data])]. *)
Definition DataFrame_of_candles (historical_data : list HistoricalData) : DataFrame :=
  {| columns := union_keys [] (map dict historical_data);
     index := RangeIndex (List.length historical_data);
     rows := historical_data |}.

(** [df['open_time']]: the column when the frame has that label, a
    [KeyError] on the label otherwise. *)
Definition getitem_open_time (df : DataFrame) : result (list Z) :=
  if contains "open_time" (columns df)
  then Ok (map open_time (rows df))
  else Raise (ColumnKeyError "open_time").

(** [pd.to_datetime(series, unit='ms')] on integers: nanoseconds since the
    epoch, which must fit the signed 64-bit range of a Timestamp. *)
Definition to_datetime_ms (series : list Z) : result (list Z) :=
  map_result
    (fun ms =>
       let ns := (ms * 1000000)%Z in
       if ((- 2 ^ 63 <? ns) && (ns <? 2 ^ 63))%Z then Ok ns
       else Raise OutOfBoundsDatetime)
    series.

(** [df.index = new_index]. *)
Definition set_index (df : DataFrame) (new_index : Index) : result DataFrame :=
  if (index_length new_index =? List.length (rows df))%nat
  then Ok {| columns := columns df; index := new_index; rows := rows df |}
  else Raise LengthMismatch.

(** The two statements the script runs after each fetch:
    [df = pd.DataFrame([candle.dict() for candle in historical_data])] and
    [df.index = pd.to_datetime(df['open_time'], unit='ms')]. *)
Definition historical_data_df (historical_data : list HistoricalData) : result DataFrame :=
  let df := DataFrame_of_candles historical_data in
  series <- getitem_open_time df ;;
  stamps <- to_datetime_ms series ;;
  set_index df (DatetimeIndex stamps).

End Pandas.
Import Pandas.

(** ** The three windows *)
Module Windows.
Local Open Scope Z_scope.

(** A naive [datetime]: local wall-clock time, counted in microseconds from
    1970-01-01 00:00:00 on the local clock. *)
Record datetime := { wall_us : Z }.

(** [timedelta(days=d)], in microseconds. *)
Definition timedelta (days : Z) : Z := days * 86400 * 1000000.

(** [t - delta]. *)
Definition sub (t : datetime) (delta : Z) : datetime :=
  {| wall_us := wall_us t - delta |}.

Section Zone.
(** The offset from UTC, in seconds, that the platform applies to a local
    wall-clock instant. *)
Variable utcoffset : Z -> Z.

(** [t.timestamp()], as its exact value in microseconds.  (The method
    returns a binary64 number of seconds; for the instants a clock reports
    in this era it has the same integer part.) *)
Definition timestamp_us (t : datetime) : Z :=
  wall_us t - utcoffset (wall_us t) * 1000000.

(** [int(t.timestamp()) * 1000]: [int] drops the fraction, towards zero. *)
Definition epoch_ms (t : datetime) : Z :=
  Z.quot (timestamp_us t) 1000000 * 1000.

Definition start_time_day (end_time : datetime) : datetime := sub end_time (timedelta 1).
Definition start_time_month (end_time : datetime) : datetime := sub end_time (timedelta 30).
Definition start_time_year (end_time : datetime) : datetime := sub end_time (timedelta 365).
End Zone.

End Windows.
Import Windows.

(** ** Logging *)
Module Logging.
Local Open Scope string_scope.

Inductive level := DEBUG | INFO | WARNING | ERROR | CRITICAL.

Definition levelno (l : level) : nat :=
  match l with
  | DEBUG => 10 | INFO => 20 | WARNING => 30 | ERROR => 40 | CRITICAL => 50
  end.

Definition levelname (l : level) : string :=
  match l with
  | DEBUG => "DEBUG" | INFO => "INFO" | WARNING => "WARNING"
  | ERROR => "ERROR" | CRITICAL => "CRITICAL"
  end.

(** A record, as one logging call creates it.  It is one object: every
    handler of the call receives the same record, so a change a formatter
    makes to it is seen by the handlers that come after. *)
Record LogRecord := {
  name : string;
  lvl : level;
  msg : string;
  asctime : string
}.

(** [logging.Formatter.format] with the format string
    ['%(asctime)s - %(name)s - %(levelname)s - %(message)s']; the call
    carries no arguments, so the message is [record.msg]. *)
Definition Formatter_format (record : LogRecord) : string :=
  asctime record ++ " - " ++ name record ++ " - " ++ levelname (lvl record)
  ++ " - " ++ msg record.

(** [CustomFormatter.format]: assigns [record.msg], then formats.  The
    record after the call is returned along with the line. *)
Definition CustomFormatter_format (record : LogRecord) : LogRecord * string :=
  let record' := {| name := name record; lvl := lvl record;
                    msg := "CUSTOM: " ++ msg record; asctime := asctime record |} in
  (record', Formatter_format record').

Inductive handler := console_handler | file_handler.

(** What has been written to the console stream and to [logfile.log]. *)
Record streams := { console : list string; logfile : list string }.

(** [Handler.emit]: the line goes to the handler's stream. *)
Definition emit (h : handler) (line : string) (out : streams) : streams :=
  match h with
  | console_handler => {| console := (console out ++ [line])%list; logfile := logfile out |}
  | file_handler => {| console := console out; logfile := (logfile out ++ [line])%list |}
  end.

(** [Logger.callHandlers]: each handler in turn formats the record with the
    one shared [formatter] and emits the line.  (The record then goes to the
    root logger, which has no handler in this script.) *)
Fixpoint callHandlers (handlers : list handler) (record : LogRecord) (out : streams)
  : LogRecord * streams :=
  match handlers with
  | [] => (record, out)
  | h :: rest =>
      let (record', line) := CustomFormatter_format record in
      callHandlers rest record' (emit h line out)
  end.

Record Logger := {
  logger_name : string;
  logger_level : level;
  handlers : list handler
}.

(** The two loggers as the module sets them up: console handler added
    first, file handler second, level INFO. *)
Definition baseloader_logger : Logger :=
  {| logger_name := "baseloader"; logger_level := INFO;
     handlers := [console_handler; file_handler] |}.
Definition binanceloader_logger : Logger :=
  {| logger_name := "binanceloader"; logger_level := INFO;
     handlers := [console_handler; file_handler] |}.

(** [logger.log(level, message)] at clock reading [now]: dropped below the
    logger's level, otherwise one record is made and handed to the
    handlers. *)
Definition log (lg : Logger) (l : level) (now : string) (message : string)
    (out : streams) : streams :=
  if (levelno (logger_level lg) <=? levelno l)%nat
  then snd (callHandlers (handlers lg)
              {| name := logger_name lg; lvl := l; msg := message; asctime := now |}
              out)
  else out.

Definition no_output : streams := {| console := []; logfile := [] |}.

End Logging.

(** ** The script: what it prints, fetches and plots, and how it ends *)
Module Script.
Local Open Scope string_scope.

Inductive event :=
| Printed (text : string)
| PrintedProducts (df : ProductsFrame)
| PrintedFrame (df : DataFrame)
| Fetch (symbol interval : string) (start_time end_time : Z)
| Plot (title : string) (data : DataFrame).

(** A run: the events so far, and a value or the exception that ended it. *)
Definition io (A : Type) : Type := (list event * result A)%type.

Definition io_ret {A} (a : A) : io A := ([], Ok a).

Definition io_bind {A B} (m : io A) (f : A -> io B) : io B :=
  match m with
  | (t, Ok a) => let (t', r) := f a in ((t ++ t')%list, r)
  | (t, Raise e) => (t, Raise e)
  end.

Definition emit_event (ev : event) : io unit := ([ev], Ok tt).

Definition lift {A} (r : result A) : io A := ([], r).

Declare Scope io_scope.
Delimit Scope io_scope with io.
Notation "x <- m ;; k" := (io_bind m (fun x => k))
  (at level 61, m at next level, right associativity) : io_scope.
Notation "m ;; k" := (io_bind m (fun _ => k))
  (at level 61, right associativity) : io_scope.

(** [for x in xs: body(x)]. *)
Fixpoint for_each {A} (xs : list A) (body : A -> io unit) : io unit :=
  match xs with
  | [] => io_ret tt
  | x :: rest => io_bind (body x) (fun _ => for_each rest body)
  end.

Definition nl : string := String (ascii_of_nat 10) "".

Definition selected_products : list string := ["BTCUSDT"; "ETHUSDT"; "LTCUSDT"].
Definition interval : string := "1d".

Section Run.
Variable T : CharTable.
Variable requests_get_json : string -> list (string * json) -> result json.
Variable utcoffset : Z -> Z.
(** [mpf.plot(data, type='line', style='charles', volume=True, ...)]: it
    draws, or raises. *)
Variable mpf_plot : DataFrame -> string -> result unit.
(** [datetime.now()]. *)
Variable end_time : datetime.

Local Open Scope io_scope.

Definition plot_candlestick (data : DataFrame) (title : string) : io unit :=
  emit_event (Plot title data) ;;
  lift (mpf_plot data title).

(** One window of one product: fetch, build the frame, index it, print
    it. *)
Definition window_df (product : string) (start_time : datetime) : io DataFrame :=
  let start_ms := epoch_ms utcoffset start_time in
  let end_ms := epoch_ms utcoffset end_time in
  emit_event (Fetch product interval start_ms end_ms) ;;
  historical_data <-
    lift (get_historical_data requests_get_json product interval start_ms end_ms) ;;
  df <- lift (historical_data_df historical_data) ;;
  emit_event (PrintedFrame df) ;;
  io_ret df.

(** The body of [for product in selected_products]. *)
Definition process_product (product : string) : io unit :=
  emit_event (Printed (nl ++ "Історичні дані для продукту " ++ product ++ ":")) ;;
  emit_event (Printed (nl ++ "За останній день:")) ;;
  historical_data_day_df <- window_df product (start_time_day end_time) ;;
  emit_event (Printed (nl ++ "За останній місяць:")) ;;
  historical_data_month_df <- window_df product (start_time_month end_time) ;;
  emit_event (Printed (nl ++ "За останній рік:")) ;;
  historical_data_year_df <- window_df product (start_time_year end_time) ;;
  emit_event (Printed (nl ++ "Графіки для продукту " ++ product ++ ":")) ;;
  emit_event (Printed (nl ++ "Графік за останній день:")) ;;
  plot_candlestick historical_data_day_df (product ++ " - Last Day") ;;
  emit_event (Printed (nl ++ "Графік за останній місяць:")) ;;
  plot_candlestick historical_data_month_df (product ++ " - Last Month") ;;
  emit_event (Printed (nl ++ "Графік за останній рік:")) ;;
  plot_candlestick historical_data_year_df (product ++ " - Last Year").

(** The module body from [print("Список доступних продуктів:")] on. *)
Definition main : io unit :=
  emit_event (Printed "Список доступних продуктів:") ;;
  products_df <- lift (get_products requests_get_json) ;;
  emit_event (PrintedProducts products_df) ;;
  for_each selected_products process_product.
End Run.

(** The candle fetches recorded in a trace, as (symbol, start) pairs. *)
Definition fetches (trace : list event) : list (string * Z) :=
  flat_map (fun ev => match ev with
                      | Fetch symbol _ start_time _ => [(symbol, start_time)]
                      | _ => []
                      end) trace.

End Script.

(** ** Vocabulary of the statements *)
Module Rules.
Local Open Scope string_scope.

(** When an entry of a [ValidationError] names a rule that the record
    (symbol, base asset, quote asset) really breaks. *)
Definition rule_violated (T : CharTable) (sym base quote : str)
    (entry : string * exn) : Prop :=
  (entry = ("symbol", AnyStrMinLengthError 6) /\ (List.length sym < 6)%nat)
  \/ (entry = ("symbol", AnyStrMaxLengthError 6) /\ (6 < List.length sym)%nat)
  \/ (entry = ("symbol", ValueError "Symbol must contain only alphanumeric characters")
      /\ isalnum T sym = false)
  \/ (entry = ("base_asset", AnyStrMaxLengthError 10) /\ (10 < List.length base)%nat)
  \/ (entry = ("base_asset", ValueError "Asset symbols must be uppercase")
      /\ isupper T base = false)
  \/ (entry = ("quote_asset", AnyStrMaxLengthError 10) /\ (10 < List.length quote)%nat)
  \/ (entry = ("quote_asset", ValueError "Asset symbols must be uppercase")
      /\ isupper T quote = false).

(** A string literal as the JSON string the exchange would send. *)
Definition jstr (s : string) : json := JStr (of_string s).

End Rules.
Import Rules.

(** ** Concrete inputs *)
Module Examples.
Local Open Scope string_scope.

(** An exchange that answers every request with the same decoded body. *)
Definition serve (data : json) : string -> list (string * json) -> result json :=
  fun _ _ => Ok data.

(** The kline array of the specification's example. *)
Definition raw_kline : json :=
  JArr [JInt 1690000000000; jstr "100.5"; jstr "101.0"; jstr "99.5"; jstr "100.8";
        jstr "10.0"; JInt 1690003600000; jstr "1000.0"; JInt 42; jstr "5.0";
        jstr "500.0"; jstr "0"].

Definition symbol_record (symbol base quote : string) : json :=
  JObj [(of_string "symbol", jstr symbol);
        (of_string "baseAsset", jstr base);
        (of_string "quoteAsset", jstr quote)].

Definition exchange_info (records : list json) : json :=
  JObj [(of_string "timezone", jstr "UTC");
        (of_string "symbols", JArr records)].

(** A listing whose second symbol has seven characters, as most symbols of
    the exchange do. *)
Definition listing_with_long_symbol : json :=
  exchange_info [symbol_record "ETHBTC" "ETH" "BTC";
                 symbol_record "BTCUSDT" "BTC" "USDT"].

End Examples.
Import Examples.

(** ** Clocks *)
Module Clock.
Local Open Scope Z_scope.

(** A zone that keeps UTC all year. *)
Definition utc : Z -> Z := fun _ => 0.

(** An instant in epoch milliseconds, as it is: only what is finer than a
    millisecond is dropped. *)
Definition exact_epoch_ms (utcoffset : Z -> Z) (t : datetime) : Z :=
  timestamp_us utcoffset t / 1000.

(** 2023-07-22 04:26:40.500 on the local clock. *)
Definition half_past_the_second : datetime := {| wall_us := 1690000000500000 |}.

(** A zone two hours ahead of UTC until the local clock shows 2023-10-29
    03:00, one hour ahead from then on. *)
Definition summer_then_winter : Z -> Z :=
  fun wall => if wall <? 1698548400000000 then 7200 else 3600.

(** 2023-10-29 12:00:00 on the local clock. *)
Definition noon_after_the_change : datetime := {| wall_us := 1698580800000000 |}.

End Clock.
Import Clock.

(** ** Runs of the script *)
Module Runs.
Local Open Scope string_scope.

(** An exchange whose listing is empty and whose klines endpoint times out
    for BTCUSDT only; every other symbol gets the example kline. *)
Definition btc_klines_down (url : string) (params : list (string * json))
  : result json :=
  if String.eqb url "https://api.binance.com/api/v1/klines" then
    match params with
    | (_, JStr s) :: _ =>
        if PyStr.eqb s (of_string "BTCUSDT")
        then Raise (RequestException "read timed out")
        else Ok (JArr [raw_kline])
    | _ => Ok (JArr [raw_kline])
    end
  else Ok (exchange_info []).

(** A renderer that always draws. *)
Definition draws : DataFrame -> string -> result unit := fun _ _ => Ok tt.

End Runs.
Import Runs.

(** ** What a constructed pair satisfies *)
Module Invariants.

(** The data-model invariant of a trading pair: a symbol of six
    alphanumeric characters, assets of at most ten characters that are
    uppercase. *)
Definition pair_invariant (T : CharTable) (p : PairModel) : Prop :=
  List.length (symbol p) = 6%nat
  /\ isalnum T (symbol p) = true
  /\ (List.length (base_asset p) <= 10)%nat
  /\ isupper T (base_asset p) = true
  /\ (List.length (quote_asset p) <= 10)%nat
  /\ isupper T (quote_asset p) = true.

End Invariants.
Import Invariants.

(** ** The loop bodies of the loaders, by name *)
Module Bodies.
Local Open Scope string_scope.
Local Open Scope py_scope.

(** What [get_pairs] does with one entry of [data['symbols']]. *)
Definition pair_of_record (T : CharTable) (pair_data : json) : result PairModel :=
  s <- getitem_key pair_data "symbol" ;;
  b <- getitem_key pair_data "baseAsset" ;;
  q <- getitem_key pair_data "quoteAsset" ;;
  PairModel_new T s b q.

End Bodies.
Import Bodies.

(** ** Counting prefixes and listing the fetches *)
Module Schedule.
Local Open Scope string_scope.

(** A message with the formatter's prefix put in front [n] times. *)
Definition prefixed (n : nat) (message : string) : string :=
  Nat.iter n (fun s => "CUSTOM: " ++ s) message.

(** The fetches of a complete run: for each selected product, in order, the
    day, the month and the year window. *)
Definition fetch_schedule (utcoffset : Z -> Z) (end_time : datetime)
  : list (string * Z) :=
  flat_map
    (fun product =>
       [(product, epoch_ms utcoffset (start_time_day end_time));
        (product, epoch_ms utcoffset (start_time_month end_time));
        (product, epoch_ms utcoffset (start_time_year end_time))])
    Script.selected_products.


(** The frame built from the example kline alone. *)
Definition raw_kline_frame : DataFrame :=
  Eval vm_compute in
    match bind (parse_candle raw_kline) (fun c => historical_data_df [c]) with
    | Ok df => df
    | Raise _ => DataFrame_of_candles []
    end.

End Schedule.
Import Schedule.

(** * Properties *)

(** ** [str.isupper] and [str.isalnum] *)
Section StrFacts.
Variable T : CharTable.

Lemma isupper_loop_uncased (s : str) (cased : bool) :
  Forall (uncased_ch T) s -> isupper_loop T cased s = cased.
Proof.
  intros H. revert cased.
  induction H as [| ch rest [Hu [Hl Ht]] _ IH]; intros cased; simpl.
  - reflexivity.
  - rewrite Hl, Ht, Hu. simpl. rewrite orb_false_r. apply IH.
Qed.

Lemma isupper_uncased (s : str) :
  Forall (uncased_ch T) s -> isupper T s = false.
Proof.
  intros H. destruct s as [| a [| b rest]].
  - reflexivity.
  - simpl. inversion H as [| x l [Hu _] _]; subst. exact Hu.
  - unfold isupper. apply (isupper_loop_uncased _ false H).
Qed.

Lemma isupper_loop_lower (s : str) (cased : bool) (ch : codepoint) :
  In ch s -> islower_ch T ch = true -> isupper_loop T cased s = false.
Proof.
  revert cased. induction s as [| a rest IH]; intros cased Hin Hl.
  - destruct Hin.
  - simpl. destruct Hin as [-> | Hin].
    + rewrite Hl. reflexivity.
    + destruct (islower_ch T a || istitle_ch T a); [reflexivity |].
      apply IH; assumption.
Qed.

(** A string that holds a lowercase character is not [isupper]. *)
Lemma isupper_lowercase (s : str) (ch : codepoint) :
  case_disjoint T -> In ch s -> islower_ch T ch = true -> isupper T s = false.
Proof.
  intros Hd Hin Hl. destruct s as [| a [| b rest]].
  - destruct Hin.
  - destruct Hin as [-> | []]. simpl.
    destruct (isupper_ch T ch) eqn:Hu; [| reflexivity].
    destruct (Hd ch Hu) as [Hl' _]. congruence.
  - unfold isupper. apply (isupper_loop_lower _ false ch Hin Hl).
Qed.

Lemma isalnum_forallb (s : str) :
  isalnum T s = (negb (Nat.eqb (List.length s) 0) && forallb (isalnum_ch T) s)%bool.
Proof.
  destruct s as [| a [| b rest]]; simpl.
  - reflexivity.
  - rewrite andb_true_r. reflexivity.
  - reflexivity.
Qed.

Lemma isalnum_bad_char (s : str) (ch : codepoint) :
  In ch s -> isalnum_ch T ch = false -> isalnum T s = false.
Proof.
  intros Hin Hch. rewrite isalnum_forallb.
  destruct (forallb (isalnum_ch T) s) eqn:Hall.
  - rewrite forallb_forall in Hall. rewrite (Hall ch Hin) in Hch. discriminate.
  - apply andb_false_r.
Qed.

Lemma isalnum_all (s : str) :
  s <> [] -> Forall (fun ch => isalnum_ch T ch = true) s -> isalnum T s = true.
Proof.
  intros Hne Hall. rewrite isalnum_forallb.
  destruct s as [| a rest]; [contradiction |]. simpl.
  apply Forall_forall with (x := a) in Hall as Ha; [| left; reflexivity].
  rewrite Ha. simpl.
  apply forallb_forall. intros x Hx.
  rewrite Forall_forall in Hall. apply Hall. right. exact Hx.
Qed.

End StrFacts.

(** ** Field validation in closed form *)
Section FieldFacts.
Variable T : CharTable.
Local Open Scope string_scope.

Lemma validate_symbol_str (s : str) :
  validate_symbol T (JStr s) =
  if (List.length s <? 6)%nat then Raise (AnyStrMinLengthError 6)
  else if (6 <? List.length s)%nat then Raise (AnyStrMaxLengthError 6)
  else if isalnum T s then Ok s
  else Raise (ValueError "Symbol must contain only alphanumeric characters").
Proof.
  unfold validate_symbol, validate_constr_field, constr_length_validator. simpl.
  destruct (List.length s <? 6)%nat eqn:Hlo; [reflexivity |].
  destruct (6 <? List.length s)%nat eqn:Hhi; [reflexivity |].
  apply Nat.ltb_ge in Hlo, Hhi.
  assert (Hlen : List.length s = 6%nat) by lia.
  simpl. unfold validate_symbol_length, validate_symbol_format.
  rewrite Hlen. simpl.
  destruct (isalnum T s); reflexivity.
Qed.

Lemma validate_asset_str (s : str) :
  validate_base_asset T (JStr s) =
  if (10 <? List.length s)%nat then Raise (AnyStrMaxLengthError 10)
  else if isupper T s then Ok s
  else Raise (ValueError "Asset symbols must be uppercase").
Proof.
  unfold validate_base_asset, validate_constr_field, constr_length_validator. simpl.
  destruct (10 <? List.length s)%nat; [reflexivity |].
  simpl. unfold validate_asset_case.
  destruct (isupper T s); reflexivity.
Qed.

Lemma validate_quote_is_base (v : json) :
  validate_quote_asset T v = validate_base_asset T v.
Proof. reflexivity. Qed.

(** The constructor raises exactly when some field has an error entry, and
    then carries all of them. *)
Lemma PairModel_new_errors (s b q : json) :
  let errors := (field_errors "symbol" (validate_symbol T s)
                 ++ field_errors "base_asset" (validate_base_asset T b)
                 ++ field_errors "quote_asset" (validate_quote_asset T q))%list in
  errors <> [] ->
  PairModel_new T s b q = Raise (ValidationError "PairModel" errors).
Proof.
  unfold PairModel_new.
  destruct (validate_symbol T s), (validate_base_asset T b),
    (validate_quote_asset T q); simpl; intros H; try reflexivity.
  contradiction H. reflexivity.
Qed.

Lemma PairModel_new_ok (s b q : json) (s' b' q' : str) :
  validate_symbol T s = Ok s' ->
  validate_base_asset T b = Ok b' ->
  validate_quote_asset T q = Ok q' ->
  PairModel_new T s b q = Ok {| symbol := s'; base_asset := b'; quote_asset := q' |}.
Proof.
  intros H1 H2 H3. unfold PairModel_new. rewrite H1, H2, H3. reflexivity.
Qed.

Ltac single_entry :=
  simpl; apply Forall_cons; [unfold rule_violated | apply Forall_nil].

Lemma symbol_errors_sound (sym base quote : str) :
  Forall (rule_violated T sym base quote)
         (field_errors "symbol" (validate_symbol T (JStr sym))).
Proof.
  rewrite validate_symbol_str.
  destruct (List.length sym <? 6)%nat eqn:Hlo.
  { apply Nat.ltb_lt in Hlo. single_entry. left. auto. }
  destruct (6 <? List.length sym)%nat eqn:Hhi.
  { apply Nat.ltb_lt in Hhi. single_entry. right. left. auto. }
  destruct (isalnum T sym) eqn:Ha; simpl.
  - constructor.
  - single_entry. right. right. left. auto.
Qed.

Lemma base_errors_sound (sym base quote : str) :
  Forall (rule_violated T sym base quote)
         (field_errors "base_asset" (validate_base_asset T (JStr base))).
Proof.
  rewrite validate_asset_str.
  destruct (10 <? List.length base)%nat eqn:Hhi.
  { apply Nat.ltb_lt in Hhi. single_entry. do 3 right. left. auto. }
  destruct (isupper T base) eqn:Hu; simpl.
  - constructor.
  - single_entry. do 4 right. left. auto.
Qed.

Lemma quote_errors_sound (sym base quote : str) :
  Forall (rule_violated T sym base quote)
         (field_errors "quote_asset" (validate_quote_asset T (JStr quote))).
Proof.
  change (validate_quote_asset T) with (validate_base_asset T).
  rewrite validate_asset_str.
  destruct (10 <? List.length quote)%nat eqn:Hhi.
  { apply Nat.ltb_lt in Hhi. single_entry. do 5 right. left. auto. }
  destruct (isupper T quote) eqn:Hu; simpl.
  - constructor.
  - single_entry. do 6 right. auto.
Qed.

Lemma symbol_bad_raises (sym : str) :
  List.length sym <> 6%nat \/ isalnum T sym = false ->
  exists e, validate_symbol T (JStr sym) = Raise e.
Proof.
  intros H. rewrite validate_symbol_str.
  destruct (List.length sym <? 6)%nat eqn:Hlo; [eauto |].
  destruct (6 <? List.length sym)%nat eqn:Hhi; [eauto |].
  apply Nat.ltb_ge in Hlo, Hhi.
  destruct H as [H | H]; [lia |]. rewrite H. eauto.
Qed.

Lemma asset_bad_raises (s : str) :
  isupper T s = false ->
  validate_base_asset T (JStr s) = Raise (AnyStrMaxLengthError 10)
  \/ validate_base_asset T (JStr s) = Raise (ValueError "Asset symbols must be uppercase").
Proof.
  intros H. rewrite validate_asset_str, H.
  destruct (10 <? List.length s)%nat; auto.
Qed.

End FieldFacts.

(** ** The pair record: acceptance and refusal *)
Section PairFacts.
Variable T : CharTable.
Local Open Scope string_scope.

Lemma PairModel_new_raise_inv (s b q : json) (e : exn) :
  PairModel_new T s b q = Raise e ->
  e = ValidationError "PairModel"
        (field_errors "symbol" (validate_symbol T s)
         ++ field_errors "base_asset" (validate_base_asset T b)
         ++ field_errors "quote_asset" (validate_quote_asset T q)).
Proof.
  unfold PairModel_new.
  destruct (validate_symbol T s), (validate_base_asset T b),
    (validate_quote_asset T q); simpl; intros H; inversion H; reflexivity.
Qed.

Lemma PairModel_new_errors_inv (s b q : json) (model : string)
    (errors : list (string * exn)) :
  PairModel_new T s b q = Raise (ValidationError model errors) ->
  errors = (field_errors "symbol" (validate_symbol T s)
            ++ field_errors "base_asset" (validate_base_asset T b)
            ++ field_errors "quote_asset" (validate_quote_asset T q))%list.
Proof.
  intros H. apply PairModel_new_raise_inv in H. congruence.
Qed.

(** C3. A record whose symbol is not 6 characters long, or holds a character
    that is not alphanumeric, or whose base or quote asset is not uppercase
    ([str.isupper] answers False), is refused: construction raises a
    [ValidationError] that has at least one entry, and every entry names a
    rule the record breaks. *)
Theorem PairModel_rejects_invalid_record (sym base quote : str) :
  List.length sym <> 6%nat
  \/ (exists ch, In ch sym /\ isalnum_ch T ch = false)
  \/ isupper T base = false
  \/ isupper T quote = false ->
  exists errors,
    PairModel_new T (JStr sym) (JStr base) (JStr quote)
      = Raise (ValidationError "PairModel" errors)
    /\ errors <> []
    /\ Forall (rule_violated T sym base quote) errors.
Proof.
  intros H.
  set (errors := (field_errors "symbol" (validate_symbol T (JStr sym))
                  ++ field_errors "base_asset" (validate_base_asset T (JStr base))
                  ++ field_errors "quote_asset" (validate_quote_asset T (JStr quote)))%list).
  assert (Hne : errors <> []).
  { subst errors. destruct H as [H | [[ch [Hin Hch]] | [H | H]]].
    - destruct (symbol_bad_raises T sym (or_introl H)) as [e ->]. discriminate.
    - destruct (symbol_bad_raises T sym (or_intror (isalnum_bad_char T sym ch Hin Hch)))
        as [e ->]. discriminate.
    - destruct (field_errors "symbol" (validate_symbol T (JStr sym))); [| discriminate].
      destruct (asset_bad_raises T base H) as [-> | ->]; discriminate.
    - destruct (field_errors "symbol" (validate_symbol T (JStr sym))); [| discriminate].
      destruct (field_errors "base_asset" (validate_base_asset T (JStr base)));
        [| discriminate].
      change (validate_quote_asset T) with (validate_base_asset T).
      destruct (asset_bad_raises T quote H) as [-> | ->]; discriminate. }
  exists errors. split; [| split].
  - apply PairModel_new_errors. exact Hne.
  - exact Hne.
  - subst errors. apply Forall_app. split; [apply symbol_errors_sound |].
    apply Forall_app. split; [apply base_errors_sound | apply quote_errors_sound].
Qed.

(** C4. A symbol of exactly 6 alphanumeric characters with base and quote
    assets that are uppercase and at most 10 characters long is accepted,
    and the record holds the three strings as given. *)
Theorem PairModel_accepts_valid_record (sym base quote : str) :
  List.length sym = 6%nat ->
  Forall (fun ch => isalnum_ch T ch = true) sym ->
  isupper T base = true -> (List.length base <= 10)%nat ->
  isupper T quote = true -> (List.length quote <= 10)%nat ->
  PairModel_new T (JStr sym) (JStr base) (JStr quote)
  = Ok {| symbol := sym; base_asset := base; quote_asset := quote |}.
Proof.
  intros Hlen Halnum Hb Hbl Hq Hql.
  apply PairModel_new_ok.
  - rewrite validate_symbol_str, Hlen. simpl.
    rewrite isalnum_all; [reflexivity | | exact Halnum].
    intros ->. discriminate.
  - rewrite validate_asset_str, Hb.
    replace (10 <? List.length base)%nat with false; [reflexivity |].
    symmetry. apply Nat.ltb_ge. exact Hbl.
  - change (validate_quote_asset T) with (validate_base_asset T).
    rewrite validate_asset_str, Hq.
    replace (10 <? List.length quote)%nat with false; [reflexivity |].
    symmetry. apply Nat.ltb_ge. exact Hql.
Qed.

(** C10. An asset without any cased character (all digits, or empty) is
    refused whatever the rest of the record is: [isupper] is False on it, so
    the asset's entry in the [ValidationError] is the uppercase rule, or the
    length rule when the asset is also longer than 10. *)
Theorem PairModel_rejects_uncased_asset (sym : json) (base quote : str) :
  Forall (uncased_ch T) base \/ Forall (uncased_ch T) quote ->
  exists errors,
    PairModel_new T sym (JStr base) (JStr quote)
      = Raise (ValidationError "PairModel" errors)
    /\ (Forall (uncased_ch T) base ->
        isupper T base = false
        /\ (In ("base_asset", ValueError "Asset symbols must be uppercase") errors
            \/ In ("base_asset", AnyStrMaxLengthError 10) errors))
    /\ (Forall (uncased_ch T) quote ->
        isupper T quote = false
        /\ (In ("quote_asset", ValueError "Asset symbols must be uppercase") errors
            \/ In ("quote_asset", AnyStrMaxLengthError 10) errors)).
Proof.
  intros H.
  set (errors := (field_errors "symbol" (validate_symbol T sym)
                  ++ field_errors "base_asset" (validate_base_asset T (JStr base))
                  ++ field_errors "quote_asset" (validate_quote_asset T (JStr quote)))%list).
  assert (Hb : Forall (uncased_ch T) base ->
               isupper T base = false
               /\ (In ("base_asset", ValueError "Asset symbols must be uppercase") errors
                   \/ In ("base_asset", AnyStrMaxLengthError 10) errors)).
  { intros Hu. pose proof (isupper_uncased T base Hu) as Hf. split; [exact Hf |].
    subst errors.
    destruct (asset_bad_raises T base Hf) as [-> | ->]; simpl.
    - right. apply in_or_app. right. left. reflexivity.
    - left. apply in_or_app. right. left. reflexivity. }
  assert (Hq : Forall (uncased_ch T) quote ->
               isupper T quote = false
               /\ (In ("quote_asset", ValueError "Asset symbols must be uppercase") errors
                   \/ In ("quote_asset", AnyStrMaxLengthError 10) errors)).
  { intros Hu. pose proof (isupper_uncased T quote Hu) as Hf. split; [exact Hf |].
    subst errors. change (validate_quote_asset T) with (validate_base_asset T).
    destruct (asset_bad_raises T quote Hf) as [-> | ->]; simpl.
    - right. apply in_or_app. right. apply in_or_app. right. left. reflexivity.
    - left. apply in_or_app. right. apply in_or_app. right. left. reflexivity. }
  exists errors. split; [| split; assumption].
  apply PairModel_new_errors. fold errors.
  destruct H as [H | H].
  - destruct (Hb H) as [_ [Hin | Hin]]; intros E; rewrite E in Hin; destruct Hin.
  - destruct (Hq H) as [_ [Hin | Hin]]; intros E; rewrite E in Hin; destruct Hin.
Qed.


End PairFacts.

Local Open Scope string_scope.


Lemma PairModel_rejects_invalid_record_witness :
  exists errors,
    PairModel_new ascii_table (jstr "BTCUSDT") (jstr "BTC") (jstr "USDT")
      = Raise (ValidationError "PairModel" errors)
    /\ errors <> []
    /\ Forall (rule_violated ascii_table (of_string "BTCUSDT") (of_string "BTC")
                 (of_string "USDT")) errors.
Proof.
  apply (PairModel_rejects_invalid_record ascii_table
           (of_string "BTCUSDT") (of_string "BTC") (of_string "USDT")).
  left. simpl. discriminate.
Defined.

Lemma PairModel_accepts_valid_record_witness :
  PairModel_new ascii_table (jstr "ETHBTC") (jstr "ETH") (jstr "BTC")
  = Ok {| symbol := of_string "ETHBTC"; base_asset := of_string "ETH";
          quote_asset := of_string "BTC" |}.
Proof.
  apply (PairModel_accepts_valid_record ascii_table
           (of_string "ETHBTC") (of_string "ETH") (of_string "BTC")).
  - reflexivity.
  - repeat constructor.
  - reflexivity.
  - simpl. lia.
  - reflexivity.
  - simpl. lia.
Defined.

Lemma PairModel_rejects_uncased_asset_witness :
  exists errors,
    PairModel_new ascii_table (jstr "ETHBTC") (jstr "123") (jstr "BTC")
      = Raise (ValidationError "PairModel" errors)
    /\ (Forall (uncased_ch ascii_table) (of_string "123") ->
        isupper ascii_table (of_string "123") = false
        /\ (In ("base_asset", ValueError "Asset symbols must be uppercase"%string) errors
            \/ In ("base_asset", AnyStrMaxLengthError 10) errors))
    /\ (Forall (uncased_ch ascii_table) (of_string "BTC") ->
        isupper ascii_table (of_string "BTC") = false
        /\ (In ("quote_asset", ValueError "Asset symbols must be uppercase"%string) errors
            \/ In ("quote_asset", AnyStrMaxLengthError 10) errors)).
Proof.
  apply (PairModel_rejects_uncased_asset ascii_table (jstr "ETHBTC")
           (of_string "123") (of_string "BTC")).
  left. repeat constructor.
Defined.


(** ** Parsing a candle *)

(** C5. The kline array of the specification's example parses into the
    candle with open 100.5, high 101.0, low 99.5, close 100.8 and 42 trades
    (and the remaining seven fields as listed). *)
Theorem parse_candle_raw_kline :
  parse_candle raw_kline
  = Ok {| open_time := 1690000000000;
          open := 100.5%float; high := 101.0%float; low := 99.5%float;
          close := 100.8%float; volume := 10.0%float;
          close_time := 1690003600000;
          quote_asset_volume := 1000.0%float;
          num_trades := 42;
          taker_buy_base_asset_volume := 5.0%float;
          taker_buy_quote_asset_volume := 500.0%float;
          ignore := 0.0%float |}.
Proof. vm_compute. reflexivity. Qed.

(** The same through the loader, when the exchange answers with that one
    kline. *)
Lemma get_historical_data_raw_kline :
  exists c,
    get_historical_data (serve (JArr [raw_kline])) "BTCUSDT" "1d"
      1689913600000 1690000000000 = Ok [c]
    /\ open c = 100.5%float /\ high c = 101.0%float /\ low c = 99.5%float
    /\ close c = 100.8%float /\ num_trades c = 42%Z.
Proof.
  eexists. split; [vm_compute; reflexivity |].
  repeat split.
Qed.

(** ** Products and pairs *)


Lemma apply_validators_same (validators : list (str -> result str)) (v v' : str) :
  Forall (fun f => forall x y, f x = Ok y -> y = x) validators ->
  apply_validators validators v = Ok v' -> v' = v.
Proof.
  intros Hall. revert v. induction Hall as [| f rest Hf _ IH]; simpl; intros v H.
  - congruence.
  - destruct (f v) as [w |] eqn:Hfv; [| discriminate].
    apply Hf in Hfv. subst w. apply IH. exact H.
Qed.

Lemma constr_length_validator_same (min_length max_length : option nat) (v v' : str) :
  constr_length_validator min_length max_length v = Ok v' -> v' = v.
Proof.
  unfold constr_length_validator.
  destruct (List.length v <? _)%nat; [discriminate |].
  destruct max_length as [n |]; [destruct (n <? List.length v)%nat |];
    intros H; inversion H; reflexivity.
Qed.

(** A field that validates holds what [str_validator] made of the raw
    value: neither the length check nor the class validators change it. *)
Lemma validate_constr_field_value (min_length max_length : option nat)
    (validators : list (str -> result str)) (raw : json) (s : str) :
  Forall (fun f => forall x y, f x = Ok y -> y = x) validators ->
  validate_constr_field min_length max_length validators raw = Ok s ->
  str_validator raw = Ok s.
Proof.
  intros Hall H. unfold validate_constr_field in H.
  destruct raw; try discriminate H;
    destruct (str_validator _) as [v |]; simpl in H; try discriminate H;
    (destruct (constr_length_validator min_length max_length v) as [w |] eqn:Hlen;
     simpl in H; [| discriminate H]);
    apply constr_length_validator_same in Hlen; subst w;
    apply (apply_validators_same _ _ _ Hall) in H; congruence.
Qed.

Lemma validate_symbol_value (T : CharTable) (raw : json) (s : str) :
  validate_symbol T raw = Ok s -> str_validator raw = Ok s.
Proof.
  apply validate_constr_field_value.
  repeat constructor; intros x y;
    unfold validate_symbol_length, validate_symbol_format;
    match goal with
    | |- context [if ?c then _ else _] => destruct c
    end; congruence.
Qed.





(** ** The time-indexed table *)

(** C1, as the code behaves. Built from no candle, the frame has no column,
    so reading its [open_time] column to index it raises a [KeyError]: the
    empty series is not returned. *)
Theorem historical_data_df_empty :
  DataFrame_of_candles [] = {| columns := []; index := RangeIndex 0; rows := [] |}
  /\ historical_data_df [] = Raise (ColumnKeyError "open_time").
Proof. split; reflexivity. Qed.

Lemma union_keys_same_keys (c : HistoricalData) (cs : list HistoricalData) :
  union_keys (map fst (dict c)) (map dict cs) = map fst (dict c).
Proof.
  induction cs as [| c' rest IH]; simpl.
  - reflexivity.
  - exact IH.
Qed.

Lemma to_datetime_ms_in_range (series : list Z) :
  Forall (fun ms => - 2 ^ 63 < ms * 1000000 < 2 ^ 63)%Z series ->
  to_datetime_ms series = Ok (map (fun ms => ms * 1000000)%Z series).
Proof.
  unfold to_datetime_ms.
  induction 1 as [| ms rest [Hlo Hhi] _ IH]; cbn [map_result map].
  - reflexivity.
  - replace ((- 2 ^ 63 <? ms * 1000000) && (ms * 1000000 <? 2 ^ 63))%Z with true.
    + rewrite IH. reflexivity.
    + symmetry. apply andb_true_intro. split; apply Z.ltb_lt; assumption.
Qed.

(** X12. With at least one candle, and open times a Timestamp can hold,
    the frame has the twelve columns, one row per candle in the order given,
    and the open times as its index. *)
Lemma historical_data_df_nonempty (c : HistoricalData) (cs : list HistoricalData) :
  Forall (fun x => - 2 ^ 63 < open_time x * 1000000 < 2 ^ 63)%Z (c :: cs) ->
  historical_data_df (c :: cs)
  = Ok {| columns := map fst (dict c);
          index := DatetimeIndex (map (fun x => open_time x * 1000000)%Z (c :: cs));
          rows := c :: cs |}.
Proof.
  intros Hrange. unfold historical_data_df, DataFrame_of_candles, getitem_open_time.
  cbn [columns rows index].
  change (union_keys [] (map dict (c :: cs)))
    with (union_keys (map fst (dict c)) (map dict cs)).
  rewrite union_keys_same_keys.
  change (contains "open_time" (map fst (dict c))) with true. cbn iota.
  unfold bind at 1.
  rewrite to_datetime_ms_in_range.
  - unfold bind, set_index. cbn [columns rows index index_length].
    rewrite !length_map, Nat.eqb_refl. rewrite map_map. reflexivity.
  - rewrite Forall_map. exact Hrange.
Qed.

(** ** The three windows *)
Section WindowFacts.
Variable utcoffset : Z -> Z.
Local Open Scope Z_scope.

Lemma timestamp_us_sub (t : datetime) (days : Z) :
  utcoffset (wall_us (sub t (timedelta days))) = utcoffset (wall_us t) ->
  timestamp_us utcoffset (sub t (timedelta days))
  = timestamp_us utcoffset t + (- (days * 86400)) * 1000000.
Proof.
  unfold timestamp_us. intros ->. unfold sub, timedelta. simpl. ring.
Qed.

Lemma epoch_ms_nonneg (t : datetime) :
  0 <= timestamp_us utcoffset t ->
  epoch_ms utcoffset t = 1000 * (timestamp_us utcoffset t / 1000000).
Proof.
  intros H. unfold epoch_ms. rewrite Z.quot_div_nonneg by lia. ring.
Qed.



(** X14. When "now" falls on a whole second, the start time handed to the
    fetch is the window start itself, in epoch milliseconds (same UTC offset
    at the window start as now, instant after the epoch). *)
Lemma window_start_exact_on_whole_second (now : datetime) (days : Z) :
  utcoffset (wall_us (sub now (timedelta days))) = utcoffset (wall_us now) ->
  0 <= timestamp_us utcoffset (sub now (timedelta days)) ->
  timestamp_us utcoffset now mod 1000000 = 0 ->
  epoch_ms utcoffset (sub now (timedelta days))
  = exact_epoch_ms utcoffset (sub now (timedelta days)).
Proof.
  intros Hoff Hpos Hwhole. unfold exact_epoch_ms.
  rewrite epoch_ms_nonneg by exact Hpos.
  rewrite timestamp_us_sub in * by exact Hoff.
  apply Z.mod_divide in Hwhole; [| lia]. destruct Hwhole as [k Hk].
  rewrite Hk.
  replace (k * 1000000 + - (days * 86400) * 1000000)
    with ((k - days * 86400) * 1000000) by ring.
  rewrite Z.div_mul by lia.
  replace ((k - days * 86400) * 1000000)
    with ((k - days * 86400) * 1000 * 1000) by ring.
  rewrite Z.div_mul by lia. ring.
Qed.

End WindowFacts.


(** Where the clocks were set back during the last day, the day window
    reaches back 25 hours: the subtraction is done on the local clock. *)
Lemma window_start_across_clock_change :
  epoch_ms summer_then_winter noon_after_the_change = 1698577200000%Z
  /\ epoch_ms summer_then_winter (start_time_day noon_after_the_change)
     = (1698577200000 - 90000000)%Z.
Proof. split; reflexivity. Qed.


(** ** Logging *)
Section LoggingFacts.
Import Logging.

Lemma callHandlers_two (record : LogRecord) (out : streams) :
  snd (callHandlers [console_handler; file_handler] record out)
  = {| console := (console out
                    ++ [(asctime record ++ " - " ++ name record ++ " - "
                         ++ levelname (lvl record) ++ " - "
                         ++ "CUSTOM: " ++ msg record)%string])%list;
       logfile := (logfile out
                    ++ [(asctime record ++ " - " ++ name record ++ " - "
                         ++ levelname (lvl record) ++ " - "
                         ++ "CUSTOM: " ++ "CUSTOM: " ++ msg record)%string])%list |}.
Proof. reflexivity. Qed.

(** C9, as the code behaves. A message logged at INFO or above through
    either logger reaches the console prefixed once, and the log file
    prefixed twice: the one formatter rewrites [record.msg] each time a
    handler formats the record. *)
Theorem log_prefix_console_once_file_twice (lg : Logger) (l : level)
    (now message : string) :
  lg = baseloader_logger \/ lg = binanceloader_logger ->
  (levelno INFO <= levelno l)%nat ->
  log lg l now message no_output
  = {| console := [now ++ " - " ++ logger_name lg ++ " - " ++ levelname l
                   ++ " - " ++ "CUSTOM: " ++ message];
       logfile := [now ++ " - " ++ logger_name lg ++ " - " ++ levelname l
                   ++ " - " ++ "CUSTOM: " ++ "CUSTOM: " ++ message] |}.
Proof.
  intros Hlg Hlevel. unfold log.
  assert (Hh : handlers lg = [console_handler; file_handler])
    by (destruct Hlg as [-> | ->]; reflexivity).
  assert (Hl : logger_level lg = INFO)
    by (destruct Hlg as [-> | ->]; reflexivity).
  rewrite Hh, Hl.
  apply Nat.leb_le in Hlevel. rewrite Hlevel.
  rewrite callHandlers_two. reflexivity.
Qed.

End LoggingFacts.

Lemma log_prefix_console_once_file_twice_witness :
  Logging.log Logging.baseloader_logger Logging.INFO "2024-01-01 12:00:00,000"
    "loaded" Logging.no_output
  = {| Logging.console :=
         ["2024-01-01 12:00:00,000 - baseloader - INFO - CUSTOM: loaded"];
       Logging.logfile :=
         ["2024-01-01 12:00:00,000 - baseloader - INFO - CUSTOM: CUSTOM: loaded"] |}.
Proof.
  apply (log_prefix_console_once_file_twice Logging.baseloader_logger Logging.INFO
           "2024-01-01 12:00:00,000" "loaded").
  - left. reflexivity.
  - simpl. lia.
Defined.

(** ** The script's loop *)
Section ScriptFacts.
Import Script.

Lemma io_bind_trace {A B} (m : io A) (f : A -> io B) :
  fst (io_bind m f)
  = (fst m ++ match snd m with
              | Ok a => fst (f a)
              | Raise _ => []
              end)%list.
Proof.
  destruct m as [t [a | e]]; simpl.
  - destruct (f a). reflexivity.
  - rewrite app_nil_r. reflexivity.
Qed.

Lemma io_bind_result {A B} (m : io A) (f : A -> io B) :
  snd (io_bind m f)
  = match snd m with
    | Ok a => snd (f a)
    | Raise e => Raise e
    end.
Proof.
  destruct m as [t [a | e]]; simpl.
  - destruct (f a). reflexivity.
  - reflexivity.
Qed.

(** A loop whose body raises on some element: the elements before it run
    in full, that element runs up to its exception, and the run ends there
    with that exception. *)
Lemma for_each_stops {A} (body : A -> io unit) (before after : list A) (x : A)
    (e : exn) :
  (forall y, In y before -> snd (body y) = Ok tt) ->
  snd (body x) = Raise e ->
  for_each (before ++ x :: after) body
  = ((flat_map (fun y => fst (body y)) before ++ fst (body x))%list, Raise e).
Proof.
  intros Hbefore Hx. induction before as [| y rest IH]; simpl.
  - destruct (body x) as [t r]. simpl in *. subst r. reflexivity.
  - assert (Hy : snd (body y) = Ok tt) by (apply Hbefore; left; reflexivity).
    destruct (body y) as [t r]. simpl in Hy. subst r. simpl.
    rewrite IH by (intros z Hz; apply Hbefore; right; exact Hz).
    rewrite app_assoc. reflexivity.
Qed.

Variable requests_get_json : string -> list (string * json) -> result json.
Variable utcoffset : Z -> Z.
Variable mpf_plot : DataFrame -> string -> result unit.
Variable end_time : datetime.

Abbreviation process := (process_product requests_get_json utcoffset mpf_plot end_time).
Abbreviation window := (window_df requests_get_json utcoffset end_time).

(** C8, as the code has it. The loop has no handler: when the body raises
    for one symbol (a fetch, a parse, the frame or a plot failing), the run
    ends with that exception.  The trace is the two header lines, the
    complete runs of the symbols before, and the failing symbol's run up to
    the exception; nothing is printed about the failure and no later symbol
    is processed. *)
Theorem main_stops_at_first_failure (products_df : ProductsFrame)
    (before after : list string) (product : string) (e : exn) :
  get_products requests_get_json = Ok products_df ->
  selected_products = (before ++ product :: after)%list ->
  (forall q, In q before -> snd (process q) = Ok tt) ->
  snd (process product) = Raise e ->
  main requests_get_json utcoffset mpf_plot end_time
  = (([Printed "Список доступних продуктів:"; PrintedProducts products_df]
      ++ flat_map (fun q => fst (process q)) before
      ++ fst (process product))%list,
     Raise e).
Proof.
  intros Hproducts Hsel Hbefore Hfail. unfold main.
  rewrite Hproducts, Hsel.
  rewrite (for_each_stops _ before after product e Hbefore Hfail).
  reflexivity.
Qed.

(** Inside one symbol, a window that fails ends the symbol's run: the day
    window failing leaves the month and year windows unfetched. *)
Lemma process_product_stops_at_day_window (product : string) (e : exn) :
  snd (window product (start_time_day end_time)) = Raise e ->
  process product
  = (([Printed (nl ++ "Історичні дані для продукту " ++ product ++ ":");
       Printed (nl ++ "За останній день:")]
      ++ fst (window product (start_time_day end_time)))%list,
     Raise e).
Proof.
  intros H. unfold process_product.
  destruct (window product (start_time_day end_time)) as [t r].
  simpl in H. subst r. reflexivity.
Qed.

(** Every window starts by calling the fetch with the window's start and
    the end time, both through [epoch_ms]; it fetches nothing else. *)
Lemma window_df_fetches (product : string) (start_time : datetime) :
  fetches (fst (window product start_time))
  = [(product, epoch_ms utcoffset start_time)].
Proof.
  unfold window_df.
  destruct (get_historical_data _ _ _ _ _) as [historical_data |]; simpl;
    [| reflexivity].
  destruct (historical_data_df historical_data); reflexivity.
Qed.

Lemma fetches_app (t1 t2 : list event) :
  fetches (t1 ++ t2) = (fetches t1 ++ fetches t2)%list.
Proof. apply flat_map_app. Qed.

Lemma fetches_plot (data : DataFrame) (title : string) :
  fetches (fst (plot_candlestick mpf_plot data title)) = [].
Proof.
  unfold plot_candlestick. destruct (mpf_plot data title); reflexivity.
Qed.

(** The fetches of one symbol are, in order, the day, month and year
    windows, as far as the run gets; a run that ends well made all three. *)
Lemma process_product_fetches (product : string) :
  exists n,
    fetches (fst (process product))
    = firstn n [(product, epoch_ms utcoffset (start_time_day end_time));
                (product, epoch_ms utcoffset (start_time_month end_time));
                (product, epoch_ms utcoffset (start_time_year end_time))]
    /\ (snd (process product) = Ok tt -> n = 3%nat).
Proof.
  pose proof (window_df_fetches product (start_time_day end_time)) as Hd.
  pose proof (window_df_fetches product (start_time_month end_time)) as Hm.
  pose proof (window_df_fetches product (start_time_year end_time)) as Hy.
  unfold process_product.
  rewrite !io_bind_trace, !io_bind_result. cbn [emit_event fst snd].
  destruct (window product (start_time_day end_time)) as [t1 [d1 | e1]];
    cbn [fst snd] in *.
  2: { exists 1%nat. rewrite !fetches_app, Hd. split; [reflexivity | discriminate]. }
  rewrite !io_bind_trace, !io_bind_result. cbn [emit_event fst snd].
  destruct (window product (start_time_month end_time)) as [t2 [d2 | e2]];
    cbn [fst snd] in *.
  2: { exists 2%nat. rewrite !fetches_app, Hd, Hm. split; [reflexivity | discriminate]. }
  rewrite !io_bind_trace, !io_bind_result. cbn [emit_event fst snd].
  destruct (window product (start_time_year end_time)) as [t3 [d3 | e3]];
    cbn [fst snd] in *.
  2: { exists 3%nat. rewrite !fetches_app, Hd, Hm, Hy. split; reflexivity. }
  exists 3%nat. split; [| reflexivity].
  rewrite !io_bind_trace. cbn [emit_event fst snd].
  repeat (rewrite ?fetches_app, ?fetches_plot, ?Hd, ?Hm, ?Hy, ?io_bind_trace;
          cbn [emit_event fst snd];
          try match goal with
              | |- context [match snd ?m with _ => _ end] => destruct (snd m)
              end).
  all: reflexivity.
Qed.

End ScriptFacts.

(** BTCUSDT's klines time out while ETHUSDT's would load: the run ends at
    the first fetch with the transport's exception, and the trace holds
    neither a report of the failure nor anything about a later window or
    symbol, although ETHUSDT on its own runs to the end. *)
Lemma main_aborts_on_btc_failure :
  Script.main btc_klines_down utc draws half_past_the_second
  = ([Script.Printed "Список доступних продуктів:";
      Script.PrintedProducts {| Product := [] |};
      Script.Printed (Script.nl ++ "Історичні дані для продукту BTCUSDT:");
      Script.Printed (Script.nl ++ "За останній день:");
      Script.Fetch "BTCUSDT" "1d" 1689913600000 1690000000000],
     Raise (RequestException "read timed out"))
  /\ snd (Script.process_product btc_klines_down utc draws half_past_the_second
            "ETHUSDT") = Ok tt.
Proof. split; vm_compute; reflexivity. Qed.

Lemma main_stops_at_first_failure_witness :
  Script.main btc_klines_down utc draws half_past_the_second
  = (([Script.Printed "Список доступних продуктів:";
       Script.PrintedProducts {| Product := [] |}]
      ++ flat_map
           (fun q => fst (Script.process_product btc_klines_down utc draws
                            half_past_the_second q)) []
      ++ fst (Script.process_product btc_klines_down utc draws
                half_past_the_second "BTCUSDT"))%list,
     Raise (RequestException "read timed out")).
Proof.
  apply (main_stops_at_first_failure btc_klines_down utc draws half_past_the_second
           {| Product := [] |} [] ["ETHUSDT"; "LTCUSDT"] "BTCUSDT"
           (RequestException "read timed out")).
  - reflexivity.
  - reflexivity.
  - intros q [].
  - vm_compute. reflexivity.
Defined.

(** * Further properties *)

(** ** The pair record, on any raw value *)
Section MorePairFacts.
Variable T : CharTable.

(** A raw value is first turned into a str; from there on the field is
    validated as that str would be. *)
Lemma validate_constr_field_raw (min_length max_length : option nat)
    (validators : list (str -> result str)) (raw : json) :
  validate_constr_field min_length max_length validators raw
  = match raw with
    | JNull => Raise NoneIsNotAllowedError
    | _ => bind (str_validator raw)
             (fun s => validate_constr_field min_length max_length validators (JStr s))
    end.
Proof.
  destruct raw as [| [|] | z | s | items | members]; reflexivity.
Qed.

Lemma validate_symbol_ok_inv (raw : json) (s : str) :
  validate_symbol T raw = Ok s ->
  List.length s = 6%nat /\ isalnum T s = true.
Proof.
  intros H.
  assert (Hs : validate_symbol T (JStr s) = Ok s).
  { pose proof (validate_symbol_value T raw s H) as Hv.
    unfold validate_symbol in *. rewrite validate_constr_field_raw in H.
    destruct raw; try discriminate H; rewrite Hv in H; exact H. }
  rewrite validate_symbol_str in Hs.
  destruct (List.length s <? 6)%nat eqn:Hlo; [discriminate |].
  destruct (6 <? List.length s)%nat eqn:Hhi; [discriminate |].
  apply Nat.ltb_ge in Hlo, Hhi.
  destruct (isalnum T s); [| discriminate].
  split; [lia | reflexivity].
Qed.

Lemma validate_asset_value (raw : json) (s : str) :
  validate_base_asset T raw = Ok s -> str_validator raw = Ok s.
Proof.
  apply validate_constr_field_value.
  repeat constructor; intros x y; unfold validate_asset_case;
    destruct (negb (isupper T x)); congruence.
Qed.

Lemma validate_asset_ok_inv (raw : json) (s : str) :
  validate_base_asset T raw = Ok s ->
  (List.length s <= 10)%nat /\ isupper T s = true.
Proof.
  intros H.
  assert (Hs : validate_base_asset T (JStr s) = Ok s).
  { pose proof (validate_asset_value raw s H) as Hv.
    unfold validate_base_asset in *. rewrite validate_constr_field_raw in H.
    destruct raw; try discriminate H; rewrite Hv in H; exact H. }
  rewrite validate_asset_str in Hs.
  destruct (10 <? List.length s)%nat eqn:Hhi; [discriminate |].
  apply Nat.ltb_ge in Hhi.
  destruct (isupper T s); [| discriminate].
  split; [exact Hhi | reflexivity].
Qed.

Lemma PairModel_new_ok_inv (s b q : json) (p : PairModel) :
  PairModel_new T s b q = Ok p ->
  validate_symbol T s = Ok (symbol p)
  /\ validate_base_asset T b = Ok (base_asset p)
  /\ validate_quote_asset T q = Ok (quote_asset p).
Proof.
  unfold PairModel_new.
  destruct (validate_symbol T s), (validate_base_asset T b),
    (validate_quote_asset T q); intros H; try discriminate H.
  inversion H. repeat split.
Qed.

Lemma PairModel_new_ok_fields (s b q : json) (p : PairModel) :
  PairModel_new T s b q = Ok p -> pair_invariant T p.
Proof.
  intros H. apply PairModel_new_ok_inv in H. destruct H as [Hs [Hb Hq]].
  apply validate_symbol_ok_inv in Hs.
  apply validate_asset_ok_inv in Hb.
  change (validate_quote_asset T) with (validate_base_asset T) in Hq.
  apply validate_asset_ok_inv in Hq.
  unfold pair_invariant. tauto.
Qed.

(** X1. Whatever the three raw values are (strings, or numbers that
    pydantic prints into strings), a pair that is constructed satisfies the
    record's invariant: a symbol of exactly six alphanumeric characters, and
    base and quote assets of at most ten characters for which [isupper]
    holds. *)
Theorem PairModel_new_invariant (s b q : json) (p : PairModel) :
  PairModel_new T s b q = Ok p -> pair_invariant T p.
Proof.
  apply PairModel_new_ok_fields.
Qed.

(** X2. On three strings, construction succeeds exactly when they satisfy
    the invariant, and then the record holds them unchanged; otherwise it
    raises. *)
Theorem PairModel_new_ok_iff (sym base quote : str) :
  PairModel_new T (JStr sym) (JStr base) (JStr quote)
    = Ok {| symbol := sym; base_asset := base; quote_asset := quote |}
  <-> pair_invariant T {| symbol := sym; base_asset := base; quote_asset := quote |}.
Proof.
  split.
  - apply PairModel_new_ok_fields.
  - unfold pair_invariant. simpl. intros [Hlen [Ha [Hbl [Hb [Hql Hq]]]]].
    apply PairModel_new_ok.
    + rewrite validate_symbol_str, Hlen, Ha. reflexivity.
    + rewrite validate_asset_str, Hb.
      replace (10 <? List.length base)%nat with false; [reflexivity |].
      symmetry. apply Nat.ltb_ge. exact Hbl.
    + change (validate_quote_asset T) with (validate_base_asset T).
      rewrite validate_asset_str, Hq.
      replace (10 <? List.length quote)%nat with false; [reflexivity |].
      symmetry. apply Nat.ltb_ge. exact Hql.
Qed.

(** X3. An asset of more than ten characters is refused whatever its case
    and whatever the other fields hold: the error carries the max-length
    entry of that asset. *)
Theorem PairModel_rejects_long_asset (sym : json) (base quote : str) :
  (10 < List.length base)%nat \/ (10 < List.length quote)%nat ->
  exists errors,
    PairModel_new T sym (JStr base) (JStr quote)
      = Raise (ValidationError "PairModel" errors)
    /\ ((10 < List.length base)%nat ->
        In ("base_asset"%string, AnyStrMaxLengthError 10) errors)
    /\ ((10 < List.length quote)%nat ->
        In ("quote_asset"%string, AnyStrMaxLengthError 10) errors).
Proof.
  intros H.
  set (errors := (field_errors "symbol" (validate_symbol T sym)
                  ++ field_errors "base_asset" (validate_base_asset T (JStr base))
                  ++ field_errors "quote_asset" (validate_quote_asset T (JStr quote)))%list).
  assert (Hb : (10 < List.length base)%nat ->
               In ("base_asset"%string, AnyStrMaxLengthError 10) errors).
  { intros Hlen. subst errors. rewrite validate_asset_str.
    apply Nat.ltb_lt in Hlen. rewrite Hlen. simpl.
    apply in_or_app. right. left. reflexivity. }
  assert (Hq : (10 < List.length quote)%nat ->
               In ("quote_asset"%string, AnyStrMaxLengthError 10) errors).
  { intros Hlen. subst errors.
    change (validate_quote_asset T) with (validate_base_asset T).
    rewrite (validate_asset_str T quote).
    apply Nat.ltb_lt in Hlen. rewrite Hlen. simpl.
    apply in_or_app. right. apply in_or_app. right. left. reflexivity. }
  exists errors. split; [| split; assumption].
  apply PairModel_new_errors. fold errors.
  destruct H as [H | H]; intros E;
    [apply Hb in H | apply Hq in H]; rewrite E in H; destruct H.
Qed.

Lemma validate_constr_field_raise_inv (min_length max_length : option nat)
    (validators : list (str -> result str)) (raw : json) (e : exn) :
  validate_constr_field min_length max_length validators raw = Raise e ->
  e = NoneIsNotAllowedError \/ e = StrError
  \/ exists v, validate_constr_field min_length max_length validators (JStr v)
               = Raise e.
Proof.
  rewrite validate_constr_field_raw.
  destruct raw as [| [|] | z | s | items | members];
    cbv beta iota delta [bind str_validator]; intros H.
  - left. congruence.
  - right. right. eexists. exact H.
  - right. right. eexists. exact H.
  - right. right. eexists. exact H.
  - right. right. eexists. exact H.
  - right. left. congruence.
  - right. left. congruence.
Qed.

Lemma validate_symbol_error (raw : json) (e : exn) :
  validate_symbol T raw = Raise e ->
  e = NoneIsNotAllowedError \/ e = StrError
  \/ e = AnyStrMinLengthError 6 \/ e = AnyStrMaxLengthError 6
  \/ e = ValueError "Symbol must contain only alphanumeric characters".
Proof.
  intros H. apply validate_constr_field_raise_inv in H.
  destruct H as [H | [H | [v H]]]; [auto | auto |].
  change (validate_symbol T (JStr v) = Raise e) in H.
  rewrite validate_symbol_str in H.
  destruct (List.length v <? 6)%nat;
    [| destruct (6 <? List.length v)%nat; [| destruct (isalnum T v)]];
    inversion H; auto 6.
Qed.

Lemma validate_asset_error (raw : json) (e : exn) :
  validate_base_asset T raw = Raise e ->
  e = NoneIsNotAllowedError \/ e = StrError
  \/ e = AnyStrMaxLengthError 10
  \/ e = ValueError "Asset symbols must be uppercase".
Proof.
  intros H. apply validate_constr_field_raise_inv in H.
  destruct H as [H | [H | [v H]]]; [auto | auto |].
  change (validate_base_asset T (JStr v) = Raise e) in H.
  rewrite validate_asset_str in H.
  destruct (10 <? List.length v)%nat; [| destruct (isupper T v)];
    inversion H; auto 6.
Qed.

Lemma field_errors_never (A : Type) (loc : string) (r : result A)
    (P : string * exn -> Prop) :
  (forall e, r = Raise e -> P (loc, e)) -> Forall P (field_errors loc r).
Proof.
  intros H. destruct r as [a | e]; simpl.
  - constructor.
  - constructor; [apply H; reflexivity | constructor].
Qed.

(** X4. The message of [validate_symbol_length] is never reported: a symbol
    of another length is stopped by the field's own length constraint before
    the class validators run, so no entry of any error says 'Symbol length
    must be 6 characters'. *)
Theorem symbol_length_message_unreachable (s b q : json) (model : string)
    (errors : list (string * exn)) :
  PairModel_new T s b q = Raise (ValidationError model errors) ->
  Forall (fun entry => snd entry <> ValueError "Symbol length must be 6 characters")
         errors.
Proof.
  intros H. apply PairModel_new_errors_inv in H. subst errors.
  change (validate_quote_asset T) with (validate_base_asset T).
  apply Forall_app. split; [| apply Forall_app; split];
    apply field_errors_never; intros e E; simpl.
  - apply validate_symbol_error in E.
    repeat (destruct E as [E | E]; [subst e; discriminate |]). subst e. discriminate.
  - apply validate_asset_error in E.
    repeat (destruct E as [E | E]; [subst e; discriminate |]). subst e. discriminate.
  - apply validate_asset_error in E.
    repeat (destruct E as [E | E]; [subst e; discriminate |]). subst e. discriminate.
Qed.

End MorePairFacts.

Lemma PairModel_new_invariant_witness :
  pair_invariant ascii_table
    {| symbol := of_string "123456"; base_asset := of_string "ETH";
       quote_asset := of_string "BTC" |}.
Proof.
  apply (PairModel_new_invariant ascii_table (JInt 123456) (jstr "ETH") (jstr "BTC")).
  reflexivity.
Defined.

Lemma PairModel_rejects_long_asset_witness :
  exists errors,
    PairModel_new ascii_table (jstr "ETHBTC") (jstr "ETHEREUMCLASSIC") (jstr "BTC")
      = Raise (ValidationError "PairModel" errors)
    /\ ((10 < List.length (of_string "ETHEREUMCLASSIC"))%nat ->
        In ("base_asset", AnyStrMaxLengthError 10) errors)
    /\ ((10 < List.length (of_string "BTC"))%nat ->
        In ("quote_asset", AnyStrMaxLengthError 10) errors).
Proof.
  apply (PairModel_rejects_long_asset ascii_table (jstr "ETHBTC")
           (of_string "ETHEREUMCLASSIC") (of_string "BTC")).
  left. simpl. lia.
Defined.

Lemma symbol_length_message_unreachable_witness :
  Forall (fun entry => snd entry <> ValueError "Symbol length must be 6 characters")
         [("symbol", AnyStrMaxLengthError 6)].
Proof.
  apply (symbol_length_message_unreachable ascii_table
           (jstr "BTCUSDT") (jstr "BTC") (jstr "USDT") "PairModel").
  reflexivity.
Defined.

(** ** The loaders, record by record *)

Lemma map_result_ok_iff {A B : Type} (f : A -> result B) (xs : list A) (ys : list B) :
  map_result f xs = Ok ys <-> Forall2 (fun x y => f x = Ok y) xs ys.
Proof.
  revert ys. induction xs as [| x rest IH]; intros ys; simpl.
  - split.
    + intros H. inversion H. constructor.
    + intros H. inversion H. reflexivity.
  - split.
    + destruct (f x) as [y |] eqn:Hx; [| discriminate].
      destruct (map_result f rest) as [ys' |] eqn:Hrest; [| discriminate].
      intros H. inversion H; subst. constructor; [exact Hx |].
      apply IH. reflexivity.
    + intros H. inversion H as [| x' y xs' ys' Hx Hrest]; subst.
      rewrite Hx. apply IH in Hrest. rewrite Hrest. reflexivity.
Qed.

Lemma map_result_first_failure {A B : Type} (f : A -> result B)
    (before after : list A) (x : A) (e : exn) :
  Forall (fun y => exists b, f y = Ok b) before ->
  f x = Raise e ->
  map_result f (before ++ x :: after) = Raise e.
Proof.
  intros Hbefore Hx. induction Hbefore as [| y rest [b Hy] _ IH]; simpl.
  - rewrite Hx. reflexivity.
  - rewrite Hy, IH. reflexivity.
Qed.

Section MoreLoaderFacts.
Variable T : CharTable.

Lemma get_pairs_serve (data : json) :
  get_pairs T (serve data)
  = bind (getitem_key data "symbols")
      (fun symbols => bind (iter symbols) (map_result (pair_of_record T))).
Proof. reflexivity. Qed.

Lemma pair_of_record_invariant (pair_data : json) (p : PairModel) :
  pair_of_record T pair_data = Ok p -> pair_invariant T p.
Proof.
  unfold pair_of_record.
  destruct (getitem_key pair_data "symbol") as [s |]; simpl; [| discriminate].
  destruct (getitem_key pair_data "baseAsset") as [b |]; simpl; [| discriminate].
  destruct (getitem_key pair_data "quoteAsset") as [q |]; simpl; [| discriminate].
  apply PairModel_new_ok_fields.
Qed.

(** X5. When the listing validates, [get_pairs] returns one pair per
    record, in the order of the response, each built from its own record,
    and every pair it returns satisfies the record's invariant. *)
Theorem get_pairs_valid_in_order (data : json) (records : list json)
    (pairs : list PairModel) :
  getitem_key data "symbols" = Ok (JArr records) ->
  get_pairs T (serve data) = Ok pairs ->
  Forall2 (fun record p => pair_of_record T record = Ok p) records pairs
  /\ List.length pairs = List.length records
  /\ Forall (pair_invariant T) pairs.
Proof.
  intros Hsym H. rewrite get_pairs_serve, Hsym in H. simpl in H.
  apply map_result_ok_iff in H.
  split; [exact H |]. split.
  - symmetry. apply (Forall2_length H).
  - clear Hsym. induction H as [| record p records' pairs' Hp _ IH]; constructor.
    + apply (pair_of_record_invariant record). exact Hp.
    + exact IH.
Qed.

(** X6. [get_pairs] is all or nothing: at the first record that fails
    (a key missing, a value refused) it raises that record's exception, and
    the pairs already built from the records before are not returned. *)
Theorem get_pairs_stops_at_first_bad_record (data : json)
    (before after : list json) (bad : json) (e : exn) :
  getitem_key data "symbols" = Ok (JArr (before ++ bad :: after)) ->
  Forall (fun record => exists p, pair_of_record T record = Ok p) before ->
  pair_of_record T bad = Raise e ->
  get_pairs T (serve data) = Raise e.
Proof.
  intros Hsym Hbefore Hbad. rewrite get_pairs_serve, Hsym. simpl.
  apply map_result_first_failure; assumption.
Qed.

(** X7. A response object without the key 'symbols' makes both
    [get_pairs] and [get_products] raise [KeyError('symbols')]. *)
Theorem loaders_need_symbols_key (members : list (str * json)) :
  lookup (of_string "symbols") members = None ->
  get_pairs T (serve (JObj members)) = Raise (KeyError (jstr "symbols"))
  /\ get_products (serve (JObj members)) = Raise (KeyError (jstr "symbols")).
Proof.
  intros H. unfold get_pairs, get_products, serve, getitem_key. simpl bind.
  unfold bind. simpl of_string in *. rewrite H. split; reflexivity.
Qed.

End MoreLoaderFacts.

Lemma get_pairs_valid_in_order_witness :
  Forall2 (fun record p => pair_of_record ascii_table record = Ok p)
    [symbol_record "ETHBTC" "ETH" "BTC"; symbol_record "LTCBTC" "LTC" "BTC"]
    [ {| symbol := of_string "ETHBTC"; base_asset := of_string "ETH";
         quote_asset := of_string "BTC" |};
      {| symbol := of_string "LTCBTC"; base_asset := of_string "LTC";
         quote_asset := of_string "BTC" |} ]
  /\ 2%nat = 2%nat
  /\ Forall (pair_invariant ascii_table)
       [ {| symbol := of_string "ETHBTC"; base_asset := of_string "ETH";
            quote_asset := of_string "BTC" |};
         {| symbol := of_string "LTCBTC"; base_asset := of_string "LTC";
            quote_asset := of_string "BTC" |} ].
Proof.
  apply (get_pairs_valid_in_order ascii_table
           (exchange_info [symbol_record "ETHBTC" "ETH" "BTC";
                           symbol_record "LTCBTC" "LTC" "BTC"])).
  - reflexivity.
  - reflexivity.
Defined.

Lemma get_pairs_stops_at_first_bad_record_witness :
  get_pairs ascii_table (serve listing_with_long_symbol)
  = Raise (ValidationError "PairModel" [("symbol", AnyStrMaxLengthError 6)]).
Proof.
  apply (get_pairs_stops_at_first_bad_record ascii_table listing_with_long_symbol
           [symbol_record "ETHBTC" "ETH" "BTC"] []
           (symbol_record "BTCUSDT" "BTC" "USDT")).
  - reflexivity.
  - constructor; [| constructor]. eexists. reflexivity.
  - reflexivity.
Defined.

Lemma loaders_need_symbols_key_witness :
  get_pairs ascii_table (serve (JObj [(of_string "code", JInt (-1121));
                                      (of_string "msg", jstr "Invalid symbol.")]))
    = Raise (KeyError (jstr "symbols"))
  /\ get_products (serve (JObj [(of_string "code", JInt (-1121));
                                (of_string "msg", jstr "Invalid symbol.")]))
    = Raise (KeyError (jstr "symbols")).
Proof.
  apply (loaders_need_symbols_key ascii_table
           [(of_string "code", JInt (-1121));
            (of_string "msg", jstr "Invalid symbol.")]).
  reflexivity.
Defined.

(** ** Candles, field by field *)



Lemma getitem_index_app (fields extra : list json) (i : nat) :
  (i < List.length fields)%nat ->
  getitem_index (JArr (fields ++ extra)) i = getitem_index (JArr fields) i.
Proof.
  intros H. simpl. rewrite nth_error_app1 by exact H. reflexivity.
Qed.

(** X9. Only the first twelve fields of a kline are read: whatever the
    exchange appends after them changes neither the candle nor the
    exception. *)
Theorem parse_candle_ignores_extra_fields (fields extra : list json) :
  (12 <= List.length fields)%nat ->
  parse_candle (JArr (fields ++ extra)) = parse_candle (JArr fields).
Proof.
  intros Hlen. unfold parse_candle.
  rewrite !getitem_index_app by lia. reflexivity.
Qed.

Lemma get_historical_data_serve (klines : list json) (symbol interval : string)
    (start_time end_time : Z) :
  get_historical_data (serve (JArr klines)) symbol interval start_time end_time
  = map_result parse_candle klines.
Proof. reflexivity. Qed.

(** X10. On a response that is a list of klines, [get_historical_data]
    returns candles exactly when every kline parses, and then the i-th
    candle is the parse of the i-th kline: count and order are those of the
    response. *)
Theorem get_historical_data_in_order (klines : list json) (symbol interval : string)
    (start_time end_time : Z) (candles : list HistoricalData) :
  get_historical_data (serve (JArr klines)) symbol interval start_time end_time
    = Ok candles
  <-> Forall2 (fun kline c => parse_candle kline = Ok c) klines candles.
Proof.
  rewrite get_historical_data_serve. apply map_result_ok_iff.
Qed.

(** X11. One kline that does not parse loses the whole window: the call
    raises the exception of the first such kline and returns none of the
    candles parsed before it. *)
Theorem get_historical_data_stops_at_first_bad_kline (before after : list json)
    (bad : json) (e : exn) (symbol interval : string) (start_time end_time : Z) :
  Forall (fun kline => exists c, parse_candle kline = Ok c) before ->
  parse_candle bad = Raise e ->
  get_historical_data (serve (JArr (before ++ bad :: after))) symbol interval
    start_time end_time = Raise e.
Proof.
  intros Hbefore Hbad. rewrite get_historical_data_serve.
  apply map_result_first_failure; assumption.
Qed.


Lemma parse_candle_ignores_extra_fields_witness :
  parse_candle
    (JArr ([JInt 1690000000000; jstr "100.5"; jstr "101.0"; jstr "99.5";
            jstr "100.8"; jstr "10.0"; JInt 1690003600000; jstr "1000.0";
            JInt 42; jstr "5.0"; jstr "500.0"; jstr "0"] ++ [jstr "new"; JNull]))
  = parse_candle
      (JArr [JInt 1690000000000; jstr "100.5"; jstr "101.0"; jstr "99.5";
             jstr "100.8"; jstr "10.0"; JInt 1690003600000; jstr "1000.0";
             JInt 42; jstr "5.0"; jstr "500.0"; jstr "0"]).
Proof.
  apply (parse_candle_ignores_extra_fields
           [JInt 1690000000000; jstr "100.5"; jstr "101.0"; jstr "99.5";
            jstr "100.8"; jstr "10.0"; JInt 1690003600000; jstr "1000.0";
            JInt 42; jstr "5.0"; jstr "500.0"; jstr "0"] [jstr "new"; JNull]).
  simpl. lia.
Defined.

Lemma get_historical_data_stops_at_first_bad_kline_witness :
  get_historical_data (serve (JArr ([raw_kline] ++ JArr [] :: [raw_kline])))
    "BTCUSDT" "1d" 0 1 = Raise IndexError.
Proof.
  apply (get_historical_data_stops_at_first_bad_kline [raw_kline] [raw_kline]
           (JArr []) IndexError "BTCUSDT" "1d" 0%Z 1%Z).
  - constructor; [| constructor]. eexists. vm_compute. reflexivity.
  - reflexivity.
Defined.

(** ** Frames that are returned *)

Lemma to_datetime_ms_ok_inv (series stamps : list Z) :
  to_datetime_ms series = Ok stamps ->
  stamps = map (fun ms => ms * 1000000)%Z series.
Proof.
  unfold to_datetime_ms. revert stamps.
  induction series as [| ms rest IH]; intros stamps; cbn [map_result map].
  - intros H. inversion H. reflexivity.
  - destruct ((- 2 ^ 63 <? ms * 1000000) && (ms * 1000000 <? 2 ^ 63))%Z;
      [| discriminate].
    destruct (map_result _ rest) as [stamps' |] eqn:Hrest; [| discriminate].
    intros H. inversion H. f_equal. apply IH. reflexivity.
Qed.

(** X13. Whenever the two statements return a frame, there was at least
    one candle, the rows are the candles given, in their order, and the
    index holds one instant per row: that row's [open_time] in
    nanoseconds. *)
Theorem historical_data_df_ok_inv (historical_data : list HistoricalData)
    (df : DataFrame) :
  historical_data_df historical_data = Ok df ->
  historical_data <> []
  /\ rows df = historical_data
  /\ index df
     = DatetimeIndex (map (fun c => open_time c * 1000000)%Z historical_data)
  /\ index_length (index df) = List.length (rows df).
Proof.
  destruct historical_data as [| c cs].
  - discriminate.
  - unfold historical_data_df, DataFrame_of_candles, getitem_open_time.
    cbn [columns rows index].
    change (union_keys [] (map dict (c :: cs)))
      with (union_keys (map fst (dict c)) (map dict cs)).
    rewrite union_keys_same_keys.
    change (contains "open_time" (map fst (dict c))) with true. cbn iota.
    unfold bind at 1.
    destruct (to_datetime_ms (map open_time (c :: cs))) as [stamps |] eqn:Hs;
      [| discriminate].
    apply to_datetime_ms_ok_inv in Hs. subst stamps.
    unfold bind, set_index. cbn [columns rows index index_length].
    rewrite !length_map, Nat.eqb_refl, map_map.
    intros H. inversion H; subst; clear H. cbn [rows index index_length].
    repeat split; [discriminate | simpl; rewrite length_map; reflexivity].
Qed.

(** ** Windows, ordered *)
Section MoreWindowFacts.
Variable utcoffset : Z -> Z.
Local Open Scope Z_scope.


End MoreWindowFacts.

Lemma historical_data_df_nonempty_witness :
  historical_data_df
    [ {| open_time := 1690000000000; open := 100.5%float; high := 101.0%float;
         low := 99.5%float; close := 100.8%float; volume := 10.0%float;
         close_time := 1690003600000; quote_asset_volume := 1000.0%float;
         num_trades := 42; taker_buy_base_asset_volume := 5.0%float;
         taker_buy_quote_asset_volume := 500.0%float; ignore := 0.0%float |} ]
  = Ok raw_kline_frame.
Proof.
  apply (historical_data_df_nonempty
           {| open_time := 1690000000000; open := 100.5%float; high := 101.0%float;
              low := 99.5%float; close := 100.8%float; volume := 10.0%float;
              close_time := 1690003600000; quote_asset_volume := 1000.0%float;
              num_trades := 42; taker_buy_base_asset_volume := 5.0%float;
              taker_buy_quote_asset_volume := 500.0%float; ignore := 0.0%float |}
           []).
  repeat constructor.
Defined.

Lemma historical_data_df_ok_inv_witness :
  rows raw_kline_frame <> []
  /\ rows raw_kline_frame = rows raw_kline_frame
  /\ index raw_kline_frame = DatetimeIndex [1690000000000000000%Z]
  /\ index_length (index raw_kline_frame) = List.length (rows raw_kline_frame).
Proof.
  apply (historical_data_df_ok_inv (rows raw_kline_frame) raw_kline_frame).
  reflexivity.
Defined.

Lemma window_start_exact_on_whole_second_witness :
  epoch_ms utc (sub {| wall_us := 1690000000000000 |} (timedelta 30))
  = exact_epoch_ms utc (sub {| wall_us := 1690000000000000 |} (timedelta 30)).
Proof.
  apply (window_start_exact_on_whole_second utc
           {| wall_us := 1690000000000000 |} 30%Z).
  - reflexivity.
  - vm_compute. discriminate.
  - reflexivity.
Defined.


(** ** Logging, call after call *)
Section MoreLoggingFacts.
Import Logging.

(** X16. A message below INFO is dropped by both loggers: nothing is
    written to the console or to the file. *)
Theorem log_below_info_dropped (lg : Logger) (now message : string) (out : streams) :
  lg = baseloader_logger \/ lg = binanceloader_logger ->
  log lg DEBUG now message out = out.
Proof.
  intros [-> | ->]; reflexivity.
Qed.

(** X17. A call at INFO or above never touches what was written before: it
    appends exactly one line to the console and one line to the file, so
    the lines of successive calls, through either logger, stay in call
    order on both streams. *)
Theorem log_appends_one_line_each (lg : Logger) (l : level) (now message : string)
    (out : streams) :
  lg = baseloader_logger \/ lg = binanceloader_logger ->
  (levelno INFO <= levelno l)%nat ->
  console (log lg l now message out)
    = (console out ++ [(now ++ " - " ++ logger_name lg ++ " - " ++ levelname l
                        ++ " - " ++ prefixed 1 message)%string])%list
  /\ logfile (log lg l now message out)
    = (logfile out ++ [(now ++ " - " ++ logger_name lg ++ " - " ++ levelname l
                        ++ " - " ++ prefixed 2 message)%string])%list.
Proof.
  intros Hlg Hlevel. unfold log.
  assert (Hh : handlers lg = [console_handler; file_handler])
    by (destruct Hlg as [-> | ->]; reflexivity).
  assert (Hl : logger_level lg = INFO)
    by (destruct Hlg as [-> | ->]; reflexivity).
  rewrite Hh, Hl.
  apply Nat.leb_le in Hlevel. rewrite Hlevel.
  rewrite callHandlers_two. split; reflexivity.
Qed.

Lemma prefixed_succ (n : nat) (message : string) :
  prefixed (S n) message = prefixed n ("CUSTOM: " ++ message).
Proof. unfold prefixed. apply Nat.iter_succ_r. Qed.

Lemma callHandlers_record (hs : list handler) (record : LogRecord) (out : streams) :
  fst (callHandlers hs record out)
  = {| name := name record; lvl := lvl record;
       msg := prefixed (List.length hs) (msg record); asctime := asctime record |}.
Proof.
  revert record out. induction hs as [| h rest IH]; intros record out.
  - destruct record. reflexivity.
  - cbn [callHandlers CustomFormatter_format List.length].
    rewrite IH. cbn [name lvl msg asctime].
    rewrite prefixed_succ. reflexivity.
Qed.

(** X18. The formatter leaves one more prefix on the record each time a
    handler formats it: whatever handlers a logger has, the handler in
    position n+1 writes the message with n+1 prefixes. *)
Theorem callHandlers_prefix_grows (hs : list handler) (h : handler)
    (record : LogRecord) (out : streams) :
  snd (callHandlers (hs ++ [h]) record out)
  = emit h (asctime record ++ " - " ++ name record ++ " - "
            ++ levelname (lvl record) ++ " - "
            ++ prefixed (S (List.length hs)) (msg record))
      (snd (callHandlers hs record out)).
Proof.
  revert record out. induction hs as [| h' rest IH]; intros record out.
  - reflexivity.
  - cbn [app callHandlers CustomFormatter_format List.length].
    rewrite IH. cbn [name lvl msg asctime].
    rewrite <- prefixed_succ. reflexivity.
Qed.

End MoreLoggingFacts.

Lemma log_below_info_dropped_witness :
  Logging.log Logging.binanceloader_logger Logging.DEBUG "2024-01-01 12:00:00,000"
    "polling" Logging.no_output = Logging.no_output.
Proof.
  apply (log_below_info_dropped Logging.binanceloader_logger
           "2024-01-01 12:00:00,000" "polling" Logging.no_output).
  right. reflexivity.
Defined.

Lemma log_appends_one_line_each_witness :
  Logging.console
    (Logging.log Logging.binanceloader_logger Logging.WARNING "12:00:01" "retry"
       {| Logging.console := ["12:00:00 - baseloader - INFO - CUSTOM: start"];
          Logging.logfile := ["12:00:00 - baseloader - INFO - CUSTOM: CUSTOM: start"] |})
  = ["12:00:00 - baseloader - INFO - CUSTOM: start";
     "12:00:01 - binanceloader - WARNING - CUSTOM: retry"]
  /\ Logging.logfile
       (Logging.log Logging.binanceloader_logger Logging.WARNING "12:00:01" "retry"
          {| Logging.console := ["12:00:00 - baseloader - INFO - CUSTOM: start"];
             Logging.logfile :=
               ["12:00:00 - baseloader - INFO - CUSTOM: CUSTOM: start"] |})
     = ["12:00:00 - baseloader - INFO - CUSTOM: CUSTOM: start";
        "12:00:01 - binanceloader - WARNING - CUSTOM: CUSTOM: retry"].
Proof.
  apply (log_appends_one_line_each Logging.binanceloader_logger Logging.WARNING
           "12:00:01" "retry"
           {| Logging.console := ["12:00:00 - baseloader - INFO - CUSTOM: start"];
              Logging.logfile :=
                ["12:00:00 - baseloader - INFO - CUSTOM: CUSTOM: start"] |}).
  - right. reflexivity.
  - simpl. lia.
Defined.

(** ** The run as a whole *)
Section MoreScriptFacts.
Import Script.

Variable requests_get_json : string -> list (string * json) -> result json.
Variable utcoffset : Z -> Z.
Variable mpf_plot : DataFrame -> string -> result unit.
Variable end_time : datetime.

Abbreviation process := (process_product requests_get_json utcoffset mpf_plot end_time).
Abbreviation window := (window_df requests_get_json utcoffset end_time).
Abbreviation windows_of product :=
  [(product, epoch_ms utcoffset (start_time_day end_time));
   (product, epoch_ms utcoffset (start_time_month end_time));
   (product, epoch_ms utcoffset (start_time_year end_time))].

Lemma firstn_of_three {A} (k : nat) (l3 more : list A) :
  List.length l3 = 3%nat ->
  firstn k l3 = firstn (Nat.min k 3) (l3 ++ more).
Proof.
  intros Hlen. rewrite firstn_app, Hlen.
  replace (Nat.min k 3 - 3)%nat with 0%nat by lia.
  rewrite firstn_O, app_nil_r.
  rewrite <- (firstn_all l3) at 1. rewrite Hlen, firstn_firstn. reflexivity.
Qed.

Lemma for_each_fetches (products : list string) :
  exists n,
    fetches (fst (for_each products process))
    = firstn n (flat_map (fun product => windows_of product) products)
    /\ (snd (for_each products process) = Ok tt
        -> n = (3 * List.length products)%nat).
Proof.
  induction products as [| product rest IH].
  - exists 0%nat. split; reflexivity.
  - destruct IH as [m [Hm Hm3]].
    destruct (process_product_fetches requests_get_json utcoffset mpf_plot end_time
                product) as [k [Hk Hk3]].
    cbn [for_each flat_map]. rewrite io_bind_trace, io_bind_result.
    destruct (snd (process product)) as [[] | e].
    + exists (3 + m)%nat. rewrite fetches_app, Hk, Hm, (Hk3 eq_refl).
      split.
      * change (3 + m)%nat with (List.length (windows_of product) + m)%nat.
        rewrite firstn_app_2. reflexivity.
      * intros Hok. rewrite (Hm3 Hok). simpl. lia.
    + exists (Nat.min k 3). rewrite app_nil_r, Hk. split.
      * apply firstn_of_three. reflexivity.
      * discriminate.
Qed.

(** X19. Whatever the exchange and the renderer do, the candle fetches of
    a run are an initial part of one fixed schedule: BTCUSDT, ETHUSDT,
    LTCUSDT in that order, each with its day, month and year window.  A run
    that ends well made all nine; a run whose product listing failed made
    none. *)
Theorem main_fetch_schedule :
  exists n,
    fetches (fst (main requests_get_json utcoffset mpf_plot end_time))
    = firstn n (fetch_schedule utcoffset end_time)
    /\ (snd (main requests_get_json utcoffset mpf_plot end_time) = Ok tt
        -> n = 9%nat)
    /\ (forall e, get_products requests_get_json = Raise e -> n = 0%nat).
Proof.
  unfold main.
  destruct (get_products requests_get_json) as [products_df | e] eqn:Hp.
  - destruct (for_each_fetches selected_products) as [n [Hn Hn9]].
    exists n. rewrite !io_bind_trace, !io_bind_result.
    cbn [emit_event lift fst snd]. rewrite !io_bind_trace, !io_bind_result.
    cbn [emit_event lift fst snd app].
    split; [| split].
    + exact Hn.
    + intros Hok. apply Hn9 in Hok. exact Hok.
    + discriminate.
  - exists 0%nat. split; [reflexivity |]. split; [discriminate | reflexivity].
Qed.





End MoreScriptFacts.

